(** * CodeFlow Sentinel: the analyze-flow pipeline of [codeflow-sentinel/sentinel.py]

    A shallow embedding of the anomaly-detection sidecar: the module globals
    ([telemetry_history], [anomaly_detector], [features_window]), feature
    extraction, the periodic re-training of the detector, the explanation
    call with its rule-based fallback, and the request handler
    [analyze_flow].

    Python floats are IEEE 754 binary64 values, embedded as Rocq's primitive
    floats; Python ints are [Z]; exceptions are an explicit result type; the
    module globals are threaded as a record; calls to the libraries
    (scikit-learn, httpx, prometheus_client, logging) are recorded in a trace
    of events, and their answers are inputs of the model. *)

From Stdlib Require Import ZArith List String Ascii Bool Lia PeanoNat.
From Stdlib Require Import Floats.
Import ListNotations.

(** ** Python values and built-ins *)

Module Py.

(** The exceptions the pipeline can meet.  All of them derive from
    Python's [Exception], so an [except Exception] clause catches each. *)
Inductive exn : Type :=
| OverflowError                 (* float(int) on an int beyond the doubles *)
| IndexError
| KeyError
| TypeError
| AttributeError
| LibraryError (msg : string).   (* raised inside a library call *)

Inductive result (A : Type) : Type :=
| Ok (a : A)
| Raise (e : exn).
Arguments Ok {A} a.
Arguments Raise {A} e.

Definition bind {A B} (r : result A) (k : A -> result B) : result B :=
  match r with
  | Ok a => k a
  | Raise e => Raise e
  end.

(** [float(n)] for an int [n]: the nearest double, ties to even;
    [OverflowError] when that rounding leaves the finite doubles. *)
Definition float_of_int (n : Z) : result float :=
  match binary_normalize prec emax n 0 false with
  | S754_infinity _ => Raise OverflowError
  | sf => Ok (SF2Prim sf)
  end.

(** [a > b] on floats: false as soon as one side is NaN. *)
Definition gt (a b : float) : bool := (b <? a)%float.

(** The built-in [min(a, b)]: [b] replaces [a] only when [b < a]. *)
Definition min (a b : float) : float := if (b <? a)%float then b else a.

(** [deque(maxlen=m).append(x)]: push on the right, then drop the
    leftmost element when the length went over [m]. *)
Definition deque_append {A} (maxlen : nat) (d : list A) (x : A) : list A :=
  let d' := d ++ [x] in
  if (maxlen <? List.length d')%nat then tl d' else d'.

(** Whitespace for [str.strip()], on characters below code point 256:
    TAB..CR, FS..US, space, NEL and NBSP. *)
Definition isspace (c : ascii) : bool :=
  let n := nat_of_ascii c in
  ((9 <=? n) && (n <=? 13)) || ((28 <=? n) && (n <=? 32))
  || (n =? 133) || (n =? 160).

Fixpoint lstrip (s : string) : string :=
  match s with
  | String c s' => if isspace c then lstrip s' else s
  | EmptyString => EmptyString
  end.

(** Right strip: a character is kept when something not blank follows it
    or it is not blank itself. *)
Fixpoint rstrip (s : string) : string :=
  match s with
  | String c s' =>
      match rstrip s' with
      | EmptyString => if isspace c then EmptyString else String c EmptyString
      | r => String c r
      end
  | EmptyString => EmptyString
  end.

Definition strip (s : string) : string := rstrip (lstrip s).

(** Truth value of a [str]: non-empty. *)
Definition str_bool (s : string) : bool :=
  match s with
  | EmptyString => false
  | String _ _ => true
  end.

End Py.

Import Py.

Local Open Scope string_scope.
Local Open Scope list_scope.

(** ** JSON documents, as [response.json()] hands them over *)

#[warnings="-register-all"]
Inductive json : Type :=
| JNull
| JBool (b : bool)
| JInt (n : Z)
| JFloat (x : float)
| JString (s : string)
| JArray (items : list json)
| JObject (fields : list (string * json)).

(** Lookup in a [dict] with a default. *)
Fixpoint dict_get (d : list (string * json)) (key : string) (default : json) : json :=
  match d with
  | [] => default
  | (k, v) :: d' => if String.eqb k key then v else dict_get d' key default
  end.

(** [v.get(key, default)]: only a dict has the method. *)
Definition py_get (v : json) (key : string) (default : json) : result json :=
  match v with
  | JObject d => Ok (dict_get d key default)
  | _ => Raise AttributeError
  end.

(** [v[0]]: the first item of a list, the first character of a str; a dict
    from JSON has no key [0]; the other values are not subscriptable. *)
Definition py_item0 (v : json) : result json :=
  match v with
  | JArray (x :: _) => Ok x
  | JArray [] => Raise IndexError
  | JString (String c _) => Ok (JString (String c EmptyString))
  | JString EmptyString => Raise IndexError
  | JObject _ => Raise KeyError
  | _ => Raise TypeError
  end.

(** [v.strip()]: only a str has the method. *)
Definition py_strip (v : json) : result string :=
  match v with
  | JString s => Ok (Py.strip s)
  | _ => Raise AttributeError
  end.

(** [result.get("choices", [{}])[0].get("message", {}).get("content", "")] *)
Definition content_field (result : json) : Py.result json :=
  bind (py_get result "choices" (JArray [JObject []])) (fun choices =>
  bind (py_item0 choices) (fun first =>
  bind (py_get first "message" (JObject [])) (fun message =>
  py_get message "content" (JString "")))).

(** The whole chain of line 115, [.strip()] included. *)
Definition message_content (result : json) : Py.result string :=
  bind (content_field result) py_strip.

(** What the POST to the explanation server does: the client raises (no
    connection, the 5 second timeout, ...) or a response comes back, whose
    [json()] may itself raise. *)
Inductive http_outcome : Type :=
| HttpFailed (e : exn)
| HttpResponse (status_code : Z) (body : result json).

(** ** The libraries around the service *)

(** scikit-learn's [IsolationForest], as far as the service uses it.
    [IsolationForest c] is the estimator object built by
    [IsolationForest(contamination=c, random_state=42, n_estimators=100)];
    [fit] gives the object after a successful training, or raises;
    [forest_bool] is the truth value Python gives the object in a
    condition. *)
Class Sklearn : Type := {
  Forest : Type;
  IsolationForest : float -> Forest;
  fit : Forest -> list (list float) -> result Forest;
  forest_bool : Forest -> result bool;
  decision_function : Forest -> list float -> result float;
  predict : Forest -> list float -> result Z
}.

(** [datetime] values and their [isoformat()]. *)
Class Datetime : Type := {
  datetime : Type;
  isoformat : datetime -> string
}.

(** Module-level configuration: the optional import and the environment. *)
Record Config : Type := {
  PROMETHEUS_AVAILABLE : bool;
  SENTINEL_HISTORY_MAX : nat;
  SENTINEL_CONTAMINATION : float
}.

(** The defaults of the environment variables; the contamination is the
    double nearest to 0.1. *)
Definition default_config (prometheus : bool) : Config :=
  {| PROMETHEUS_AVAILABLE := prometheus;
     SENTINEL_HISTORY_MAX := 1000;
     SENTINEL_CONTAMINATION := 0x1.999999999999ap-4%float |}.

(** Calls that leave the process or touch a library, in program order. *)
Inductive event : Type :=
| Inc (metric : string)                    (* Counter.inc(), by variable name *)
| SetGauge (metric : string) (v : float)   (* Gauge.set(v) *)
| Observe (metric : string)                (* leaving Histogram.time() *)
| LogInfo
| LogWarning (e : exn)
| LogError (e : exn)
| HttpPost (route : string)
| NewForest
| Fit (X : list (list float))
| DecisionFunction (x : list float)
| Predict (x : list float).

Definition inc_if (cfg : Config) (metric : string) : list event :=
  if PROMETHEUS_AVAILABLE cfg then [Inc metric] else [].

(** ** Explanations *)

(** The rule-based reasons at the end of [explain_async]. *)
Definition fallback_reason (latency input_len errors : float) : string :=
  if Py.gt latency 5000 then
    "Unusually high latency detected, possible resource exhaustion or DoS attempt"
  else if Py.gt errors 5 then
    "High error rate suggests potential attack or system degradation"
  else if Py.gt input_len 10000 then
    "Excessive input size may indicate buffer overflow attempt"
  else
    "Unusual combination of telemetry metrics detected".

(** The body of the [try] once the prompt is built: [Ok (Some text)] is the
    [return explanation]; [Ok None] is falling out of the [try] without a
    return; [Raise e] goes to the [except] clause. *)
Definition primary_explanation (cfg : Config) (http : http_outcome)
  : result (option string) * list event :=
  match http with
  | HttpFailed e => (Raise e, [])
  | HttpResponse status_code body =>
      if (status_code =? 200)%Z then
        match bind body message_content with
        | Raise e => (Raise e, [])
        | Ok explanation =>
            if Py.str_bool explanation
            then (Ok (Some explanation), inc_if cfg "REQUEST_COUNT[llm]")
            else (Ok None, [])
        end
      else (Ok None, [])
  end.

Section Service.

Context {SK : Sklearn} {DT : Datetime}.

(** ** Data model *)

(** The pydantic model [TelemetryData]: typed fields, no range constraint. *)
Record TelemetryData : Type := {
  latency : float;
  input_length : Z;
  errors : Z;
  route : string;
  user_id : option string;
  timestamp : option datetime
}.

Definition set_timestamp (telemetry : TelemetryData) (t : datetime) : TelemetryData :=
  {| latency := latency telemetry;
     input_length := input_length telemetry;
     errors := errors telemetry;
     route := route telemetry;
     user_id := user_id telemetry;
     timestamp := Some t |}.

Record AnalysisResponse : Type := {
  status : string;
  action : option string;
  reason : option string;
  prediction_score : option float;
  confidence : option float
}.

(** One entry of [telemetry_history]: the feature list, [telemetry.dict()]
    and the ISO timestamp. *)
Record HistoryEntry : Type := {
  h_features : list float;
  h_telemetry : TelemetryData;
  h_timestamp : string
}.

(** The module globals. [telemetry_history] is the [deque] with
    [maxlen=SENTINEL_HISTORY_MAX]; [features_window] is a plain list. *)
Record Globals : Type := {
  telemetry_history : list HistoryEntry;
  anomaly_detector : option Forest;
  features_window : list (list float)
}.

Definition initial_globals : Globals :=
  {| telemetry_history := []; anomaly_detector := None; features_window := [] |}.

(** What one request meets outside the process. *)
Record World : Type := {
  utcnow : datetime;
  http : http_outcome
}.

(** ** [explain_async] *)

(** The indexings [features[0]], [features[1]], [features[2]] raise
    [IndexError] on a shorter list: in the prompt, where the [except]
    clause catches it, and again in the fallback, where nothing does. *)
Definition explain_async (cfg : Config) (http : http_outcome)
  (features : list float) (payload : TelemetryData) : result string * list event :=
  match features with
  | latency :: input_len :: errors :: _ =>
      let post := HttpPost (route payload) in
      match primary_explanation cfg http with
      | (Ok (Some explanation), tr) => (Ok explanation, post :: tr)
      | (Ok None, tr) => (Ok (fallback_reason latency input_len errors), post :: tr)
      | (Raise e, tr) =>
          (Ok (fallback_reason latency input_len errors),
           post :: tr ++ LogWarning e :: inc_if cfg "LLM_FAILURES")
      end
  | _ => (Raise IndexError, LogWarning IndexError :: inc_if cfg "LLM_FAILURES")
  end.

(** ** [update_anomaly_detector] *)

(** The global is bound to the new estimator before [fit] runs on it, so a
    [fit] that raises leaves the global on the new, untrained object. *)
Definition update_anomaly_detector (cfg : Config) (g : Globals) : Globals * list event :=
  if (List.length (features_window g) <? 10)%nat then (g, [])
  else
    let features_array := features_window g in
    let fresh := IsolationForest (SENTINEL_CONTAMINATION cfg) in
    match fit fresh features_array with
    | Ok trained =>
        ({| telemetry_history := telemetry_history g;
            anomaly_detector := Some trained;
            features_window := features_window g |},
         [NewForest; Fit features_array; LogInfo])
    | Raise e =>
        ({| telemetry_history := telemetry_history g;
            anomaly_detector := Some fresh;
            features_window := features_window g |},
         [NewForest; Fit features_array; LogError e])
    end.

(** ** [extract_features] *)

Definition extract_features (telemetry : TelemetryData) : result (list float) :=
  bind (Py.float_of_int (input_length telemetry)) (fun input_len =>
  bind (Py.float_of_int (errors telemetry)) (fun errs =>
  Ok [latency telemetry; input_len; errs])).

(** ** [analyze_flow] *)

(** Lines 206-216: append to the window, fill in the timestamp, append to
    the history. *)
Definition record_sample (cfg : Config) (w : World) (g : Globals)
  (telemetry : TelemetryData) (features : list float) : Globals * TelemetryData :=
  let telemetry' :=
    match timestamp telemetry with
    | None => set_timestamp telemetry (utcnow w)
    | Some _ => telemetry
    end in
  let stamp :=
    match timestamp telemetry with
    | None => utcnow w
    | Some t => t
    end in
  let entry :=
    {| h_features := features;
       h_telemetry := telemetry';
       h_timestamp := isoformat stamp |} in
  ({| telemetry_history :=
        Py.deque_append (SENTINEL_HISTORY_MAX cfg) (telemetry_history g) entry;
      anomaly_detector := anomaly_detector g;
      features_window := features_window g ++ [features] |},
   telemetry').

(** Lines 218-220: re-train every 50 samples. *)
Definition maybe_retrain (cfg : Config) (g : Globals) : Globals * list event :=
  if (List.length (features_window g) mod 50 =? 0)%nat
  then update_anomaly_detector cfg g
  else (g, []).

Definition ok_response : AnalysisResponse :=
  {| status := "OK"; action := None; reason := None;
     prediction_score := None; confidence := None |}.

Definition threat_response (reason : string) (prediction_score : float) : AnalysisResponse :=
  {| status := "THREAT_DETECTED";
     action := Some "freeze";
     reason := Some reason;
     prediction_score := Some (- prediction_score)%float;
     confidence := Some (Py.min (abs prediction_score * 10)%float 1%float) |}.

(** Lines 250-254: the normal response. *)
Definition normal (cfg : Config) : result (option AnalysisResponse) * list event :=
  (Ok (Some ok_response),
   if PROMETHEUS_AVAILABLE cfg then [SetGauge "ANOMALY_RATE" 0%float] else []).

Definition after (tr : list event)
  (r : result (option AnalysisResponse) * list event)
  : result (option AnalysisResponse) * list event :=
  (fst r, tr ++ snd r).

(** Lines 224-248: the [try] around scoring; every exception in it is
    logged and the handler goes on to the normal response. *)
Definition score (cfg : Config) (w : World) (detector : Forest)
  (features : list float) (telemetry : TelemetryData)
  : result (option AnalysisResponse) * list event :=
  match decision_function detector features with
  | Raise e => after [DecisionFunction features; LogError e] (normal cfg)
  | Ok prediction_score =>
      match predict detector features with
      | Raise e =>
          after [DecisionFunction features; Predict features; LogError e] (normal cfg)
      | Ok prediction =>
          let scored := [DecisionFunction features; Predict features] in
          if (prediction =? -1)%Z then
            match explain_async cfg (http w) features telemetry with
            | (Raise e, tr) => after (scored ++ tr ++ [LogError e]) (normal cfg)
            | (Ok reason, tr) =>
                (Ok (Some (threat_response reason prediction_score)),
                 scored ++ tr ++
                 (if PROMETHEUS_AVAILABLE cfg then [SetGauge "ANOMALY_RATE" 1%float] else []))
            end
          else after scored (normal cfg)
      end
  end.

(** Lines 222-254: [if anomaly_detector and len(features_window) >= 10].
    The truth value of the detector is taken first, outside the [try]. *)
Definition detect (cfg : Config) (w : World) (g : Globals)
  (features : list float) (telemetry : TelemetryData)
  : result (option AnalysisResponse) * list event :=
  match anomaly_detector g with
  | None => normal cfg
  | Some detector =>
      match forest_bool detector with
      | Raise e => (Raise e, [])
      | Ok false => normal cfg
      | Ok true =>
          if (10 <=? List.length (features_window g))%nat
          then score cfg w detector features telemetry
          else normal cfg
      end
  end.

(** The outcome of one call of the handler: what it returned ([Ok None] is
    Python's [None]), the globals and the request object afterwards, and
    the library calls made. *)
Record Run : Type := {
  returned : result (option AnalysisResponse);
  globals : Globals;
  sample : TelemetryData;
  trace : list event
}.

(** The whole body sits under [if PROMETHEUS_AVAILABLE:]; without the
    metrics library the function falls off its end and returns [None]. *)
Definition analyze_flow (cfg : Config) (w : World) (g : Globals)
  (telemetry : TelemetryData) : Run :=
  if PROMETHEUS_AVAILABLE cfg then
    let enter := [Inc "REQUEST_COUNT[analyze-flow]"] in
    let leave := [Observe "LATENCY_HISTOGRAM"] in
    match extract_features telemetry with
    | Raise e =>
        {| returned := Raise e; globals := g; sample := telemetry;
           trace := enter ++ leave |}
    | Ok features =>
        let '(g1, telemetry') := record_sample cfg w g telemetry features in
        let '(g2, retrain) := maybe_retrain cfg g1 in
        let '(r, tr) := detect cfg w g2 features telemetry' in
        {| returned := r; globals := g2; sample := telemetry';
           trace := enter ++ retrain ++ tr ++ leave |}
    end
  else
    {| returned := Ok None; globals := g; sample := telemetry; trace := [] |}.

(** Requests served one after the other on the same globals. *)
Fixpoint serve (cfg : Config) (g : Globals) (requests : list (World * TelemetryData))
  : Globals * list Run :=
  match requests with
  | [] => (g, [])
  | (w, telemetry) :: rest =>
      let run := analyze_flow cfg w g telemetry in
      let '(g', runs) := serve cfg (globals run) rest in
      (g', run :: runs)
  end.

End Service.

Arguments TelemetryData {DT}.
Arguments World {DT}.
Arguments Globals {SK DT}.
Arguments Run {SK DT}.

(** ** The specification's wording, for comparison *)

(** The fallback as a chain of rules tried in order, the first match
    winning, with a default when none matches. *)
Fixpoint first_match {A} (rules : list ((A -> bool) * string)) (default : string) (x : A)
  : string :=
  match rules with
  | [] => default
  | (applies, text) :: rest => if applies x then text else first_match rest default x
  end.

Definition spec_rule_chain : list ((float * float * float -> bool) * string) :=
  [ (fun '(latency, _, _) => Py.gt latency 5000,
     "Unusually high latency detected, possible resource exhaustion or DoS attempt");
    (fun '(_, _, errors) => Py.gt errors 5,
     "High error rate suggests potential attack or system degradation");
    (fun '(_, input_length, _) => Py.gt input_length 10000,
     "Excessive input size may indicate buffer overflow attempt") ].

Definition spec_fallback (latency input_length errors : float) : string :=
  first_match spec_rule_chain "Unusual combination of telemetry metrics detected"
    (latency, input_length, errors).

(** The specification's confidence: [min(|s - 0.5| * scaleFactor, 1.0)]. *)
Definition spec_confidence (s scaleFactor : float) : float :=
  Py.min (abs (s - 0.5) * scaleFactor)%float 1%float.

(** ** A stand-in detector for worked runs *)

(** An estimator is untrained or holds its training matrix. Training
    refuses a matrix with an entry that is NaN, infinite or beyond the
    single-precision range, as scikit-learn's input validation does; an
    untrained estimator has no truth value and cannot score; a trained one
    flags exactly the samples whose latency exceeds 5000. *)
Inductive toy_forest : Type :=
| Unfitted
| Fitted (X : list (list float)).

Definition float32_ok (x : float) : bool := (abs x <=? 0x1.fffffep127)%float.

Definition toy_fit (_ : toy_forest) (X : list (list float)) : result toy_forest :=
  if forallb (forallb float32_ok) X then Ok (Fitted X)
  else Raise (LibraryError "Input X contains NaN, infinity or a value too large").

Definition toy_bool (f : toy_forest) : result bool :=
  match f with
  | Fitted _ => Ok true
  | Unfitted => Raise AttributeError
  end.

Definition toy_decision_function (f : toy_forest) (x : list float) : result float :=
  match f, x with
  | Fitted _, latency :: _ =>
      Ok (if Py.gt latency 5000 then (-0.03125)%float else 0.125%float)
  | Fitted _, [] => Raise (LibraryError "Expected 2D array")
  | Unfitted, _ => Raise (LibraryError "NotFittedError")
  end.

Definition toy_predict (f : toy_forest) (x : list float) : result Z :=
  match f, x with
  | Fitted _, latency :: _ => Ok (if Py.gt latency 5000 then -1 else 1)%Z
  | Fitted _, [] => Raise (LibraryError "Expected 2D array")
  | Unfitted, _ => Raise (LibraryError "NotFittedError")
  end.

Definition toy_sklearn : Sklearn :=
  {| Forest := toy_forest;
     IsolationForest := fun _ => Unfitted;
     fit := toy_fit;
     forest_bool := toy_bool;
     decision_function := toy_decision_function;
     predict := toy_predict |}.

(** Instants written directly in ISO form. *)
Definition iso_datetime : Datetime :=
  {| datetime := string; isoformat := fun t => t |}.

(** ** Worked requests *)

Definition request (latency : float) (input_length errors : Z) (route : string)
  : @TelemetryData iso_datetime :=
  {| latency := latency; input_length := input_length; errors := errors;
     route := route; user_id := None; timestamp := None |}.

Definition baseline_sample := request 200 1000 0 "/api/test".
Definition outlier_sample := request 20000 20000 10 "/api/suspicious".
Definition negative_sample := request (-100) 512 0 "/api/test".
Definition oversized_sample := request 0x1p130 1000 0 "/api/test".

(** The explanation server cannot be reached. *)
Definition offline : @World iso_datetime :=
  @Build_World iso_datetime "2024-01-01T00:00:00" (HttpFailed (LibraryError "ConnectError")).

Definition toy_serve (cfg : Config) (samples : list (@TelemetryData iso_datetime))
  : @Globals toy_sklearn iso_datetime * list (@Run toy_sklearn iso_datetime) :=
  serve (SK := toy_sklearn) cfg initial_globals (map (fun s => (offline, s)) samples).

(** Fifty baseline samples, an oversized one, then baseline samples up to
    the hundredth request. *)
Definition hundred_requests : list (@TelemetryData iso_datetime) :=
  repeat baseline_sample 50 ++ [oversized_sample] ++ repeat baseline_sample 49.

(** A marked first sample followed by a thousand baseline samples: one
    request more than the default capacity. *)
Definition first_sample := request 150 900 1 "/api/first".

Definition overflow_requests : list (@TelemetryData iso_datetime) :=
  first_sample :: repeat baseline_sample 1000.

Definition is_ok {A} (r : result A) : bool :=
  match r with
  | Ok _ => true
  | Raise _ => false
  end.

(** The feature vectors that a sequence of requests appends, in order:
    those of the requests served with the metrics library present whose
    integers lie within the doubles. *)
Definition accepted_features {DT : Datetime} (cfg : Config)
  (requests : list (@World DT * @TelemetryData DT)) : list (list float) :=
  if PROMETHEUS_AVAILABLE cfg
  then flat_map (fun r => match extract_features (snd r) with
                          | Ok f => [f]
                          | Raise _ => []
                          end) requests
  else [].

(** The cumulative number of appends. *)
Definition appends {DT : Datetime} (cfg : Config)
  (requests : list (@World DT * @TelemetryData DT)) : nat :=
  List.length (accepted_features cfg requests).

(** A trace with a rebuild: an estimator was constructed. *)
Definition rebuilt (tr : list event) : bool :=
  existsb (fun e => match e with NewForest => true | _ => false end) tr.

(** A trace with scoring: the detector was asked about a sample. *)
Definition scored (tr : list event) : bool :=
  existsb (fun e => match e with DecisionFunction _ | Predict _ => true | _ => false end) tr.

(** A second stand-in, which also validates the sample it is asked about:
    scoring a vector with an entry that is NaN, infinite or beyond the
    single-precision range raises, as training on it does. *)
Definition strict_decision_function (f : toy_forest) (x : list float) : result float :=
  if forallb float32_ok x then toy_decision_function f x
  else Raise (LibraryError "Input X contains NaN, infinity or a value too large").

Definition strict_predict (f : toy_forest) (x : list float) : result Z :=
  if forallb float32_ok x then toy_predict f x
  else Raise (LibraryError "Input X contains NaN, infinity or a value too large").

Definition strict_sklearn : Sklearn :=
  {| Forest := toy_forest;
     IsolationForest := fun _ => Unfitted;
     fit := toy_fit;
     forest_bool := toy_bool;
     decision_function := strict_decision_function;
     predict := strict_predict |}.

(** The globals after fifty baseline requests, with the second stand-in. *)
Definition after_fifty : @Globals strict_sklearn iso_datetime :=
  fst (serve (SK := strict_sklearn) (default_config true) initial_globals
         (map (fun s => (offline, s)) (repeat baseline_sample 50))).

(** The values a trace sets the gauge [ANOMALY_RATE] to, in order. *)
Definition gauge_values (tr : list event) : list float :=
  flat_map (fun e => match e with
                     | SetGauge _ v => [v]
                     | _ => []
                     end) tr.

(** A sample whose input_length is beyond the doubles. *)
Definition huge_sample := request 200 (2 ^ 1024) 0 "/api/test".

(** ** The health endpoint and counters over runs *)

(** The body of the reply of [GET /health]. *)
Record HealthStatus : Type := {
  health_status : string;
  health_timestamp : string;
  history_size : nat;
  detector_trained : bool;
  version : string
}.

(** [health_check], lines 168-193: the size of the history, whether the
    global detector [is not None], and the current time. Nothing in its
    [try] block raises on these globals, so the 503 branch is not taken. *)
Definition health_check {SK : Sklearn} {DT : Datetime} (cfg : Config) (now : datetime)
  (g : @Globals SK DT) : HealthStatus * list event :=
  ({| health_status := "healthy";
      health_timestamp := isoformat now;
      history_size := List.length (telemetry_history g);
      detector_trained := match anomaly_detector g with
                          | Some _ => true
                          | None => false
                          end;
      version := "1.0.0" |},
   inc_if cfg "REQUEST_COUNT[health]").

(** The estimator that lines 148-153 leave in the global for a training
    matrix: trained when [fit] returns, the new object when it raises. *)
Definition published {SK : Sklearn} (cfg : Config) (X : list (list float)) : Forest :=
  match fit (IsolationForest (SENTINEL_CONTAMINATION cfg)) X with
  | Ok trained => trained
  | Raise _ => IsolationForest (SENTINEL_CONTAMINATION cfg)
  end.

(** How many of the runs re-trained. *)
Definition rebuilds {SK : Sklearn} {DT : Datetime} (runs : list (@Run SK DT)) : nat :=
  List.length (filter (fun run => rebuilt (trace run)) runs).

(** How many POSTs to the explanation server a trace holds. *)
Definition posts (tr : list event) : nat :=
  List.length (filter (fun e => match e with HttpPost _ => true | _ => false end) tr).

(** ** [ml_engine.py]: the [AnomalyDetector] wrapper *)

(** [score_samples] of a scikit-learn estimator, which the wrapper uses
    besides the methods of [Sklearn]. *)
Class SklearnScores (SK : Sklearn) : Type := {
  score_samples : Forest -> list float -> result float
}.

Section MlEngine.

Context {SK : Sklearn} {SC : SklearnScores SK}.

(** The text Python puts for [{value}] in an f-string. *)
Variable str_value : float -> string.

(** The fields of an [AnomalyDetector] that change; [feature_names] is the
    constant below. *)
Record AnomalyDetector : Type := {
  model : Forest;
  is_trained : bool
}.

Definition feature_names : list string :=
  ["latency"; "input_size"; "error_count"; "memory_usage"].

(** [__init__] *)
Definition new_detector (contamination : float) : AnomalyDetector :=
  {| model := IsolationForest contamination; is_trained := false |}.

(** [train]: fits on data that is not empty and marks the detector trained;
    an exception of [fit] leaves the method before the mark is set. *)
Definition train (d : AnomalyDetector) (data : list (list float))
  : result bool * AnomalyDetector :=
  if (0 <? List.length data)%nat then
    match fit (model d) data with
    | Ok fitted => (Ok true, {| model := fitted; is_trained := true |})
    | Raise e => (Raise e, d)
    end
  else (Ok false, d).

(** [predict]: 1 for an untrained detector; otherwise the estimator's own
    label is computed and dropped, and the label returned compares
    [score_samples] with the threshold. *)
Definition ml_predict (d : AnomalyDetector) (feature_vector : list float)
  (threshold : float) : result Z :=
  if negb (is_trained d) then Ok 1%Z
  else
    bind (predict (model d) feature_vector) (fun prediction =>
    bind (score_samples (model d) feature_vector) (fun score =>
    if (score <? threshold)%float then Ok (-1)%Z else Ok 1%Z)).

Definition default_threshold : float := (-0.5)%float.

(** [score] *)
Definition ml_score (d : AnomalyDetector) (feature_vector : list float) : result float :=
  if negb (is_trained d) then Ok 0%float
  else score_samples (model d) feature_vector.

(** [enumerate(l)], from a first index. *)
Fixpoint enumerate_from {A} (i : nat) (l : list A) : list (nat * A) :=
  match l with
  | [] => []
  | x :: l' => (i, x) :: enumerate_from (S i) l'
  end.

(** One turn of the loop of [explain_anomaly]: what is appended. *)
Definition indicator (i : nat) (value : float) : list string :=
  if (i =? 0)%nat && Py.gt value 1000 then
    [("High latency: " ++ str_value value ++ "ms")%string]
  else if (i =? 2)%nat && Py.gt value 5 then
    [("Elevated error rate: " ++ str_value value)%string]
  else if (i =? 3)%nat && Py.gt value 80 then
    [("High memory usage: " ++ str_value value ++ "%")%string]
  else [].

(** [explain_anomaly]: the loop runs over [zip(feature_names, vector)]. *)
Definition explain_anomaly (feature_vector : list float) : list string :=
  let explanation :=
    flat_map (fun '(i, (feature, value)) => indicator i value)
      (enumerate_from 0 (combine feature_names feature_vector)) in
  match explanation with
  | [] => ["No clear anomaly indicators"]
  | _ => explanation
  end.

End MlEngine.

(** ** [server/ekg_connector.py]: the confidence of an enrichment *)

(** The built-in [max(a, b)]: [b] replaces [a] only when [b > a]. *)
Definition py_max (a b : float) : float := if (a <? b)%float then b else a.

(** Truth value of a list: not empty. *)
Definition list_bool {A} (l : list A) : bool :=
  match l with
  | [] => false
  | _ :: _ => true
  end.

(** The doubles nearest to 0.2 and 0.1, which the literals denote. *)
Definition two_tenths : float := 0x1.999999999999ap-3%float.
Definition one_tenth : float := 0x1.999999999999ap-4%float.

(** [EKGContextService._calculate_confidence_score], lines 273-304; of
    the request only [depth] is read. *)
Definition calculate_confidence_score {A B C} (dependencies : list A) (owners : list B)
  (risk_factors : list C) (depth : Z) : float :=
  let score := 0.5%float in
  let score := if list_bool dependencies then (score + two_tenths)%float else score in
  let score := if list_bool owners then (score + two_tenths)%float else score in
  let score := if list_bool risk_factors then (score + one_tenth)%float else score in
  let score := if (1 <? depth)%Z then (score + one_tenth)%float else score in
  py_max 0%float (Py.min 1%float score).

(** ** [ai_code_reviewer.py]: reviewing a diff *)

Module Reviewer.

Definition newline : ascii := ascii_of_nat 10.

(** [s.split('\n')]: the pieces between the newlines, one more than there
    are newlines. *)
Fixpoint split_lines (s : string) : list string :=
  match s with
  | EmptyString => [EmptyString]
  | String c s' =>
      if Ascii.eqb c newline then EmptyString :: split_lines s'
      else match split_lines s' with
           | line :: rest => String c line :: rest
           | [] => [String c EmptyString]
           end
  end.

(** [line.startswith(p)] *)
Definition startswith (p line : string) : bool := String.prefix p line.

(** [line[1:]] *)
Definition drop_first (line : string) : string :=
  match line with
  | EmptyString => EmptyString
  | String _ rest => rest
  end.

(** ['\n'.join(lines)] *)
Definition join_lines (lines : list string) : string :=
  String.concat (String newline EmptyString) lines.

(** The loop of [review_diff], lines 501-504: the added lines of the diff,
    without their [+], the [+++] headers left out. *)
Definition added_lines (diff_text : string) : list string :=
  flat_map (fun line =>
              if startswith "+" line && negb (startswith "+++" line)
              then [drop_first line] else [])
    (split_lines diff_text).

(** [ReviewResult], with the file reviews left abstract. *)
Record ReviewResult (FileReview : Type) : Type := {
  overall_status : string;
  summary : string;
  score : Z;
  files : list FileReview
}.
Arguments overall_status {FileReview} r.
Arguments summary {FileReview} r.
Arguments score {FileReview} r.
Arguments files {FileReview} r.

(** [review_diff], lines 490-515, over the [review_code] it calls. *)
Definition review_diff {FileReview : Type}
  (review_code : string -> string -> ReviewResult FileReview) (diff_text : string)
  : ReviewResult FileReview :=
  match added_lines diff_text with
  | [] =>
      {| overall_status := "PASS";
         summary := "No new code changes detected";
         score := 10;
         files := [] |}
  | code_lines => review_code (join_lines code_lines) "diff"
  end.

(** No newline inside a line. *)
Definition single_line (line : string) : bool :=
  forallb (fun c => negb (Ascii.eqb c newline)) (list_ascii_of_string line).

(** A diff that removes one line and adds none. *)
Definition removal_diff : string :=
  join_lines ["--- a/app.py"; "+++ b/app.py"; "@@ -1 +0,0 @@"; "-import os"].

End Reviewer.

(** * Properties *)

(** ** Python built-ins *)

Example float_of_int_small : Py.float_of_int 1024 = Ok 1024%float.
Proof. reflexivity. Qed.

Example float_of_int_rounds :
  Py.float_of_int (2 ^ 53 + 1) = Ok 9007199254740992%float.
Proof. vm_compute. reflexivity. Qed.

Example float_of_int_overflow : Py.float_of_int (2 ^ 1024) = Raise OverflowError.
Proof. vm_compute. reflexivity. Qed.

Example strip_example : Py.strip "  high load " = "high load".
Proof. reflexivity. Qed.

Lemma str_bool_true (s : string) : Py.str_bool s = true -> s <> "".
Proof. destruct s; simpl; congruence. Qed.

Lemma strip_nonempty (s : string) : Py.strip s <> "" -> s <> "".
Proof. intros H E. subst s. apply H. reflexivity. Qed.

Lemma deque_append_length {A} (maxlen : nat) (d : list A) (x : A) :
  List.length d <= maxlen -> List.length (Py.deque_append maxlen d x) <= maxlen.
Proof.
  intros Hd. unfold Py.deque_append.
  destruct (Nat.ltb_spec maxlen (List.length (d ++ [x]))) as [Hlt | Hge]; [ | exact Hge ].
  rewrite length_app in Hlt. simpl in Hlt.
  destruct d as [ | a d ]; simpl in *; [ lia | ].
  rewrite length_app. simpl. lia.
Qed.

(** ** The explanation call *)

Lemma first_match_spec_chain (latency input_len errors : float) :
  fallback_reason latency input_len errors = spec_fallback latency input_len errors.
Proof.
  unfold fallback_reason, spec_fallback, spec_rule_chain. simpl.
  destruct (Py.gt latency 5000); [ reflexivity | ].
  destruct (Py.gt errors 5); [ reflexivity | ].
  destruct (Py.gt input_len 10000); reflexivity.
Qed.

(** The four scenarios of the repository's fallback test. *)
Example fallback_scenarios :
  fallback_reason 6000 1000 2
  = "Unusually high latency detected, possible resource exhaustion or DoS attempt"
  /\ fallback_reason 200 1000 8
     = "High error rate suggests potential attack or system degradation"
  /\ fallback_reason 200 15000 2
     = "Excessive input size may indicate buffer overflow attempt"
  /\ fallback_reason 500 2000 3
     = "Unusual combination of telemetry metrics detected".
Proof. repeat split; reflexivity. Qed.

(** A NaN latency matches no latency rule: every comparison with it is
    false. *)
Example fallback_nan :
  fallback_reason nan 1000 8
  = "High error rate suggests potential attack or system degradation".
Proof. reflexivity. Qed.

(** A body in the OpenAI layout yields its content, stripped; a body
    without "choices" yields the empty default. *)
Example message_content_choices :
  message_content
    (JObject [("choices",
               JArray [JObject [("message",
                                 JObject [("role", JString "assistant");
                                          ("content", JString " Latency spike. ")])]])])
  = Ok "Latency spike.".
Proof. reflexivity. Qed.

Example message_content_default :
  message_content (JObject [("message", JObject [("content", JString "Latency spike.")])])
  = Ok "".
Proof. reflexivity. Qed.

Example message_content_no_choice :
  message_content (JObject [("choices", JArray [])]) = Raise IndexError.
Proof. reflexivity. Qed.

Section ExplainFacts.

Context {DT : Datetime}.

Lemma explain_async_result (cfg : Config) (http : http_outcome)
  (latency input_len errors : float) (payload : TelemetryData) :
  fst (explain_async cfg http [latency; input_len; errors] payload)
  = Ok (match fst (primary_explanation cfg http) with
        | Ok (Some text) => text
        | _ => fallback_reason latency input_len errors
        end).
Proof.
  unfold explain_async.
  destruct (primary_explanation cfg http) as [[[text | ] | e] tr]; reflexivity.
Qed.

Lemma primary_explanation_some (cfg : Config) (http : http_outcome) (text : string) :
  fst (primary_explanation cfg http) = Ok (Some text) ->
  exists body raw,
    http = HttpResponse 200 (Ok body)
    /\ content_field body = Ok (JString raw)
    /\ text = Py.strip raw /\ text <> "" /\ raw <> "".
Proof.
  unfold primary_explanation.
  destruct http as [e | code body]; simpl; [ discriminate | ].
  destruct (Z.eqb_spec code 200) as [-> | Hne]; [ | discriminate ].
  destruct body as [body | e]; simpl; [ | discriminate ].
  unfold message_content.
  destruct (content_field body) as [v | e] eqn:Hc; simpl; [ | discriminate ].
  destruct v; simpl; try discriminate.
  destruct (Py.str_bool (Py.strip s)) eqn:Hs; simpl; [ | discriminate ].
  intros H. injection H as <-.
  exists body, s. repeat split; auto using str_bool_true.
  apply strip_nonempty. now apply str_bool_true.
Qed.

End ExplainFacts.

(** C5: when the fallback produces the explanation, the rules are tried in
    the fixed order latency > 5000, errors > 5, input_length > 10000,
    generic, the first match winning: the source's chain is the
    specification's first-match chain, [explain_async] returns it whenever
    the primary call gave no text, and latency 6000 with errors 8 gets the
    latency text and not the errors text. *)
Theorem fallback_first_match_wins :
  forall (DT : Datetime) (cfg : Config) (http : http_outcome)
         (latency input_len errors : float) (payload : TelemetryData),
    fst (explain_async cfg http [latency; input_len; errors] payload)
    = Ok (match fst (primary_explanation cfg http) with
          | Ok (Some text) => text
          | _ => spec_fallback latency input_len errors
          end)
    /\ (Py.gt latency 5000 = true ->
        spec_fallback latency input_len errors
        = "Unusually high latency detected, possible resource exhaustion or DoS attempt")
    /\ (Py.gt latency 5000 = false -> Py.gt errors 5 = true ->
        spec_fallback latency input_len errors
        = "High error rate suggests potential attack or system degradation")
    /\ (Py.gt latency 5000 = false -> Py.gt errors 5 = false ->
        Py.gt input_len 10000 = true ->
        spec_fallback latency input_len errors
        = "Excessive input size may indicate buffer overflow attempt")
    /\ (Py.gt latency 5000 = false -> Py.gt errors 5 = false ->
        Py.gt input_len 10000 = false ->
        spec_fallback latency input_len errors
        = "Unusual combination of telemetry metrics detected")
    /\ fallback_reason 6000 input_len 8
       = "Unusually high latency detected, possible resource exhaustion or DoS attempt"
    /\ fallback_reason 6000 input_len 8
       <> "High error rate suggests potential attack or system degradation".
Proof.
  intros DT cfg http latency input_len errors payload.
  split.
  { rewrite explain_async_result.
    destruct (fst (primary_explanation cfg http)) as [[text | ] | e];
      now rewrite ?first_match_spec_chain. }
  unfold spec_fallback, spec_rule_chain. simpl.
  repeat split.
  - intros ->. reflexivity.
  - intros -> ->. reflexivity.
  - intros -> -> ->. reflexivity.
  - intros -> -> ->. reflexivity.
  - discriminate.
Qed.

(** C10: the primary text is returned only for a response with status 200
    whose message content is not empty (it is then the stripped content); a
    200 response with empty content and any other status fall through to
    the fallback rules, without a log entry and without an error, and give
    the text that an exception or the timeout of the call gives. *)
Theorem primary_only_on_200_with_content :
  forall (DT : Datetime) (cfg : Config) (latency input_len errors : float)
         (payload : TelemetryData),
    (forall http text,
        fst (primary_explanation cfg http) = Ok (Some text) ->
        fst (explain_async cfg http [latency; input_len; errors] payload) = Ok text
        /\ exists body raw,
             http = HttpResponse 200 (Ok body)
             /\ content_field body = Ok (JString raw)
             /\ text = Py.strip raw /\ raw <> "")
    /\ (forall body,
        content_field body = Ok (JString "") ->
        explain_async cfg (HttpResponse 200 (Ok body)) [latency; input_len; errors] payload
        = (Ok (fallback_reason latency input_len errors), [HttpPost (route payload)]))
    /\ (forall code body,
        code <> 200%Z ->
        explain_async cfg (HttpResponse code body) [latency; input_len; errors] payload
        = (Ok (fallback_reason latency input_len errors), [HttpPost (route payload)]))
    /\ (forall e,
        fst (explain_async cfg (HttpFailed e) [latency; input_len; errors] payload)
        = Ok (fallback_reason latency input_len errors)).
Proof.
  intros DT cfg latency input_len errors payload.
  split; [ | split; [ | split ] ].
  - intros outcome text H. split.
    + rewrite explain_async_result, H. reflexivity.
    + destruct (primary_explanation_some cfg outcome text H)
        as (body & raw & ? & ? & ? & ? & ?).
      exists body, raw. auto.
  - intros body Hc. unfold explain_async, primary_explanation, message_content.
    simpl. rewrite Hc. reflexivity.
  - intros code body Hne. unfold explain_async, primary_explanation.
    destruct (Z.eqb_spec code 200); [ contradiction | reflexivity ].
  - intros e. reflexivity.
Qed.

(** ** One request *)

Section RequestFacts.

Context {SK : Sklearn} {DT : Datetime}.

Implicit Types (cfg : Config) (w : World) (g : Globals) (t : TelemetryData)
  (f : list float) (tr : list event).

(** The handler on a request that gets past feature extraction with the
    metrics library present. *)
Lemma analyze_flow_on cfg w g t f :
  PROMETHEUS_AVAILABLE cfg = true ->
  extract_features t = Ok f ->
  analyze_flow cfg w g t
  = let g1 := fst (record_sample cfg w g t f) in
    let t' := snd (record_sample cfg w g t f) in
    let g2 := fst (maybe_retrain cfg g1) in
    {| returned := fst (detect cfg w g2 f t');
       globals := g2;
       sample := t';
       trace := [Inc "REQUEST_COUNT[analyze-flow]"] ++ snd (maybe_retrain cfg g1)
                ++ snd (detect cfg w g2 f t') ++ [Observe "LATENCY_HISTOGRAM"] |}.
Proof.
  intros Hp Hf. unfold analyze_flow. rewrite Hp, Hf. cbv zeta.
  destruct (record_sample cfg w g t f) as [g1 t']. cbn [fst snd].
  destruct (maybe_retrain cfg g1) as [g2 retrain]. cbn [fst snd].
  destruct (detect cfg w g2 f t') as [r tr]. reflexivity.
Qed.

Lemma analyze_flow_off cfg w g t :
  PROMETHEUS_AVAILABLE cfg = false ->
  analyze_flow cfg w g t
  = {| returned := Ok None; globals := g; sample := t; trace := [] |}.
Proof. intros Hp. unfold analyze_flow. now rewrite Hp. Qed.

Lemma analyze_flow_overflow cfg w g t e :
  PROMETHEUS_AVAILABLE cfg = true ->
  extract_features t = Raise e ->
  analyze_flow cfg w g t
  = {| returned := Raise e; globals := g; sample := t;
       trace := [Inc "REQUEST_COUNT[analyze-flow]"; Observe "LATENCY_HISTOGRAM"] |}.
Proof. intros Hp Hf. unfold analyze_flow. now rewrite Hp, Hf. Qed.

Lemma extract_features_shape t f :
  extract_features t = Ok f ->
  exists input_len errs, f = [latency t; input_len; errs].
Proof.
  unfold extract_features.
  destruct (Py.float_of_int (input_length t)) as [il | ]; simpl; [ | discriminate ].
  destruct (Py.float_of_int (errors t)) as [er | ]; simpl; [ | discriminate ].
  intros H. injection H as <-. eauto.
Qed.

(** Re-training touches the detector only. *)
Lemma update_anomaly_detector_frame cfg g :
  features_window (fst (update_anomaly_detector cfg g)) = features_window g
  /\ telemetry_history (fst (update_anomaly_detector cfg g)) = telemetry_history g.
Proof.
  unfold update_anomaly_detector.
  destruct (List.length (features_window g) <? 10)%nat; [ now split | ].
  destruct (fit _ _); now split.
Qed.

Lemma maybe_retrain_frame cfg g :
  features_window (fst (maybe_retrain cfg g)) = features_window g
  /\ telemetry_history (fst (maybe_retrain cfg g)) = telemetry_history g.
Proof.
  unfold maybe_retrain.
  destruct (List.length (features_window g) mod 50 =? 0)%nat; [ | now split ].
  apply update_anomaly_detector_frame.
Qed.

Lemma globals_after_request cfg w g t f :
  PROMETHEUS_AVAILABLE cfg = true ->
  extract_features t = Ok f ->
  features_window (globals (analyze_flow cfg w g t)) = features_window g ++ [f]
  /\ telemetry_history (globals (analyze_flow cfg w g t))
     = Py.deque_append (SENTINEL_HISTORY_MAX cfg) (telemetry_history g)
         {| h_features := f;
            h_telemetry := sample (analyze_flow cfg w g t);
            h_timestamp := isoformat match timestamp t with
                                     | Some given => given
                                     | None => utcnow w
                                     end |}.
Proof.
  intros Hp Hf. rewrite (analyze_flow_on cfg w g t f Hp Hf).
  cbv zeta. cbn [globals sample].
  destruct (maybe_retrain_frame cfg (fst (record_sample cfg w g t f))) as [-> ->].
  split; reflexivity.
Qed.

End RequestFacts.

(** C1, the code where the claim fails: without the metrics library the
    handler does nothing and returns [None], for every request: no
    [AnalysisResponse], hence no status. *)
Theorem analyze_flow_without_metrics_library :
  forall (SK : Sklearn) (DT : Datetime) (capacity : nat) (contamination : float)
         (w : World) (g : Globals) (t : TelemetryData),
    analyze_flow
      {| PROMETHEUS_AVAILABLE := false;
         SENTINEL_HISTORY_MAX := capacity;
         SENTINEL_CONTAMINATION := contamination |} w g t
    = {| returned := Ok None; globals := g; sample := t; trace := [] |}.
Proof. intros. apply analyze_flow_off. reflexivity. Qed.

(** C9, counterexample: a sample submitted without a timestamp carries one
    after the request. *)
Lemma missing_timestamp_is_filled_in :
  timestamp baseline_sample = None
  /\ timestamp (sample (analyze_flow (SK := toy_sklearn) (default_config true)
                          offline initial_globals baseline_sample))
     = Some "2024-01-01T00:00:00".
Proof. split; reflexivity. Qed.

(** C9, amended: a request leaves latency, input_length, errors, route and
    user_id of the sample as they were, and a timestamp that was given; a
    missing timestamp is set to the current UTC time when the sample enters
    the pipeline (metrics library present, integers within the doubles) and
    stays missing otherwise. *)
Theorem sample_after_request :
  forall (SK : Sklearn) (DT : Datetime) (cfg : Config) (w : World) (g : Globals)
         (t : TelemetryData),
    let t' := sample (analyze_flow cfg w g t) in
    latency t' = latency t
    /\ input_length t' = input_length t
    /\ errors t' = errors t
    /\ route t' = route t
    /\ user_id t' = user_id t
    /\ timestamp t'
       = match timestamp t with
         | Some given => Some given
         | None =>
             if PROMETHEUS_AVAILABLE cfg && is_ok (extract_features t)
             then Some (utcnow w) else None
         end.
Proof.
  intros SK DT cfg w g t.
  destruct (PROMETHEUS_AVAILABLE cfg) eqn:Hp.
  - destruct (extract_features t) as [f | e] eqn:Hf.
    + rewrite (analyze_flow_on cfg w g t f Hp Hf). simpl.
      destruct (timestamp t) eqn:Ht; simpl; rewrite ?Ht; repeat split; reflexivity.
    + rewrite (analyze_flow_overflow cfg w g t e Hp Hf). simpl.
      destruct (timestamp t); repeat split; reflexivity.
  - rewrite (analyze_flow_off cfg w g t Hp). simpl.
    destruct (timestamp t); repeat split; reflexivity.
Qed.

(** ** Which library calls a request makes *)

Section TraceFacts.

Context {SK : Sklearn} {DT : Datetime}.

Implicit Types (cfg : Config) (w : World) (g : Globals) (t : TelemetryData)
  (f : list float) (tr : list event).

Lemma rebuilt_app tr1 tr2 : rebuilt (tr1 ++ tr2) = rebuilt tr1 || rebuilt tr2.
Proof. apply existsb_app. Qed.

Lemma scored_app tr1 tr2 : scored (tr1 ++ tr2) = scored tr1 || scored tr2.
Proof. apply existsb_app. Qed.

Lemma inc_if_quiet cfg metric :
  rebuilt (inc_if cfg metric) = false /\ scored (inc_if cfg metric) = false.
Proof. unfold inc_if. destruct (PROMETHEUS_AVAILABLE cfg); now split. Qed.

Lemma primary_explanation_quiet cfg outcome :
  rebuilt (snd (primary_explanation cfg outcome)) = false
  /\ scored (snd (primary_explanation cfg outcome)) = false.
Proof.
  unfold primary_explanation.
  destruct outcome as [e | code body]; [ now split | ].
  destruct (code =? 200)%Z; [ | now split ].
  destruct (bind body message_content) as [text | e]; [ | now split ].
  destruct (Py.str_bool text); [ apply inc_if_quiet | now split ].
Qed.

Lemma explain_async_quiet cfg outcome f (payload : TelemetryData) :
  rebuilt (snd (explain_async cfg outcome f payload)) = false
  /\ scored (snd (explain_async cfg outcome f payload)) = false.
Proof.
  unfold explain_async.
  destruct (inc_if_quiet cfg "LLM_FAILURES") as [Hr Hs].
  destruct f as [ | latency [ | input_len [ | errs rest ] ] ];
    try (cbn [snd rebuilt scored existsb orb]; now split).
  destruct (primary_explanation_quiet cfg outcome) as [Pr Ps].
  destruct (primary_explanation cfg outcome) as [[[text | ] | e] tr];
    cbn [snd] in *; unfold rebuilt, scored in *; cbn [existsb orb];
    rewrite ?existsb_app; cbn [existsb orb]; rewrite ?Pr, ?Ps, ?Hr, ?Hs; now split.
Qed.

Lemma normal_quiet cfg :
  fst (normal cfg) = Ok (Some ok_response)
  /\ rebuilt (snd (normal cfg)) = false /\ scored (snd (normal cfg)) = false.
Proof. unfold normal. destruct (PROMETHEUS_AVAILABLE cfg); now repeat split. Qed.

(** Scoring never re-trains. *)
Lemma detect_no_rebuild cfg w g f t : rebuilt (snd (detect cfg w g f t)) = false.
Proof.
  destruct (normal_quiet cfg) as (_ & Hn & _).
  unfold detect.
  destruct (anomaly_detector g) as [det | ]; [ | exact Hn ].
  destruct (forest_bool det) as [[ | ] | e]; [ | exact Hn | reflexivity ].
  destruct (10 <=? List.length (features_window g))%nat; [ | exact Hn ].
  unfold score, after.
  destruct (decision_function det f) as [d | e];
    [ | cbn [snd]; rewrite rebuilt_app, Hn; reflexivity ].
  destruct (predict det f) as [p | e];
    [ | cbn [snd]; rewrite rebuilt_app, Hn; reflexivity ].
  destruct (p =? -1)%Z; [ | cbn [snd]; rewrite rebuilt_app, Hn; reflexivity ].
  destruct (explain_async_quiet cfg (http w) f t) as [He _].
  destruct (explain_async cfg (http w) f t) as [[text | e] tr]; cbn [snd] in *.
  - rewrite !rebuilt_app, He. destruct (PROMETHEUS_AVAILABLE cfg); reflexivity.
  - rewrite !rebuilt_app, He, Hn. reflexivity.
Qed.

(** Re-training never scores. *)
Lemma maybe_retrain_not_scored cfg g : scored (snd (maybe_retrain cfg g)) = false.
Proof.
  unfold maybe_retrain, update_anomaly_detector.
  destruct (List.length (features_window g) mod 50 =? 0)%nat; [ | reflexivity ].
  destruct (List.length (features_window g) <? 10)%nat; [ reflexivity | ].
  destruct (fit _ _); reflexivity.
Qed.

(** A rebuild happens exactly under the two tests of lines 219 and 143, and
    it publishes an estimator made from the configuration and the whole
    window: trained when [fit] returns, the new untrained object when [fit]
    raises. *)
Lemma maybe_retrain_rebuilt cfg g :
  rebuilt (snd (maybe_retrain cfg g))
  = (List.length (features_window g) mod 50 =? 0)%nat
    && (10 <=? List.length (features_window g))%nat.
Proof.
  unfold maybe_retrain, update_anomaly_detector.
  destruct (List.length (features_window g) mod 50 =? 0)%nat; [ | reflexivity ].
  destruct (Nat.ltb_spec (List.length (features_window g)) 10) as [Hlt | Hge];
    destruct (Nat.leb_spec 10 (List.length (features_window g))); try lia;
    [ reflexivity | ].
  destruct (fit _ _); reflexivity.
Qed.

Lemma maybe_retrain_publishes cfg g :
  rebuilt (snd (maybe_retrain cfg g)) = true ->
  In (Fit (features_window g)) (snd (maybe_retrain cfg g))
  /\ anomaly_detector (fst (maybe_retrain cfg g))
     = Some match fit (IsolationForest (SENTINEL_CONTAMINATION cfg)) (features_window g) with
            | Ok trained => trained
            | Raise _ => IsolationForest (SENTINEL_CONTAMINATION cfg)
            end.
Proof.
  unfold maybe_retrain, update_anomaly_detector.
  destruct (List.length (features_window g) mod 50 =? 0)%nat; [ | discriminate ].
  destruct (List.length (features_window g) <? 10)%nat; [ discriminate | ].
  destruct (fit _ _); intros _; (split; [ simpl; auto | reflexivity ]).
Qed.

Lemma maybe_retrain_idle cfg g :
  rebuilt (snd (maybe_retrain cfg g)) = false -> fst (maybe_retrain cfg g) = g.
Proof.
  unfold maybe_retrain, update_anomaly_detector.
  destruct (List.length (features_window g) mod 50 =? 0)%nat; [ | reflexivity ].
  destruct (List.length (features_window g) <? 10)%nat; [ reflexivity | ].
  destruct (fit _ _); discriminate.
Qed.

Lemma rebuilt_request cfg w g t f :
  PROMETHEUS_AVAILABLE cfg = true ->
  extract_features t = Ok f ->
  rebuilt (trace (analyze_flow cfg w g t))
  = rebuilt (snd (maybe_retrain cfg (fst (record_sample cfg w g t f)))).
Proof.
  intros Hp Hf. rewrite (analyze_flow_on cfg w g t f Hp Hf).
  cbv zeta. cbn [trace]. rewrite !rebuilt_app, detect_no_rebuild.
  cbn [rebuilt existsb]. now rewrite !orb_false_r.
Qed.

Lemma scored_request cfg w g t f :
  PROMETHEUS_AVAILABLE cfg = true ->
  extract_features t = Ok f ->
  scored (trace (analyze_flow cfg w g t))
  = scored (snd (detect cfg w (globals (analyze_flow cfg w g t)) f
                   (sample (analyze_flow cfg w g t)))).
Proof.
  intros Hp Hf. rewrite (analyze_flow_on cfg w g t f Hp Hf).
  cbv zeta. cbn [trace globals sample].
  rewrite !scored_app, maybe_retrain_not_scored.
  cbn [scored existsb orb]. now rewrite !orb_false_r.
Qed.

(** Once the guard of line 223 holds, the detector is asked. *)
Lemma detect_scores cfg w g f t det :
  anomaly_detector g = Some det ->
  forest_bool det = Ok true ->
  10 <= List.length (features_window g) ->
  scored (snd (detect cfg w g f t)) = true.
Proof.
  intros Hd Hb Hn. unfold detect. rewrite Hd, Hb.
  destruct (Nat.leb_spec 10 (List.length (features_window g))); [ | lia ].
  unfold score, after.
  destruct (decision_function det f); [ | reflexivity ].
  destruct (predict det f) as [p | ]; [ | reflexivity ].
  destruct (p =? -1)%Z; [ | reflexivity ].
  destruct (explain_async cfg (http w) f t) as [[text | e] tr]; reflexivity.
Qed.

End TraceFacts.

(** ** Verdicts *)

Section VerdictFacts.

Context {SK : Sklearn} {DT : Datetime}.

Implicit Types (cfg : Config) (w : World) (g : Globals) (t : TelemetryData)
  (f : list float) (tr : list event).

(** What [detect] can return: the truth value of the detector raised, the
    normal response, or a threat response built from the detector's two
    answers. *)
Lemma detect_cases cfg w g f t :
  (exists det e, anomaly_detector g = Some det /\ forest_bool det = Raise e
                 /\ fst (detect cfg w g f t) = Raise e)
  \/ fst (detect cfg w g f t) = Ok (Some ok_response)
  \/ (exists det d text,
        anomaly_detector g = Some det
        /\ forest_bool det = Ok true
        /\ 10 <= List.length (features_window g)
        /\ decision_function det f = Ok d
        /\ predict det f = Ok (-1)%Z
        /\ fst (explain_async cfg (http w) f t) = Ok text
        /\ fst (detect cfg w g f t) = Ok (Some (threat_response text d))).
Proof.
  unfold detect.
  destruct (anomaly_detector g) as [det | ]; [ | right; left; reflexivity ].
  destruct (forest_bool det) as [[ | ] | e] eqn:Hb;
    [ | right; left; reflexivity | left; eauto ].
  destruct (Nat.leb_spec 10 (List.length (features_window g))) as [Hn | Hn];
    [ | right; left; reflexivity ].
  unfold score, after.
  destruct (decision_function det f) as [d | e] eqn:Hd; [ | right; left; reflexivity ].
  destruct (predict det f) as [p | e] eqn:Hq; [ | right; left; reflexivity ].
  destruct (Z.eqb_spec p (-1)) as [-> | Hne]; [ | right; left; reflexivity ].
  destruct (explain_async cfg (http w) f t) as [[text | e] tr] eqn:He;
    [ | right; left; reflexivity ].
  right; right. exists det, d, text. repeat split; auto.
Qed.

(** With the metrics library present, a request ends in one of three ways:
    an integer of the sample is beyond the doubles, the truth value of the
    detector raises, or a response with one of the two statuses comes back.
    Exceptions of [decision_function], [predict] and [explain_async] never
    reach the caller. *)
Lemma analyze_flow_with_metrics_library cfg w g t :
  PROMETHEUS_AVAILABLE cfg = true ->
  (exists e, extract_features t = Raise e /\ returned (analyze_flow cfg w g t) = Raise e)
  \/ (exists det e, anomaly_detector (globals (analyze_flow cfg w g t)) = Some det
                    /\ forest_bool det = Raise e
                    /\ returned (analyze_flow cfg w g t) = Raise e)
  \/ (exists r, returned (analyze_flow cfg w g t) = Ok (Some r)
                /\ (status r = "OK" \/ status r = "THREAT_DETECTED")).
Proof.
  intros Hp. destruct (extract_features t) as [f | e] eqn:Hf.
  - right. rewrite (analyze_flow_on cfg w g t f Hp Hf). cbv zeta. cbn [returned globals].
    destruct (detect_cases cfg w
                (fst (maybe_retrain cfg (fst (record_sample cfg w g t f)))) f
                (snd (record_sample cfg w g t f)))
      as [(det & e & Hd & Hb & Hr) | [Hr | (det & d & text & _ & _ & _ & _ & _ & _ & Hr)]].
    + left. eauto.
    + right. rewrite Hr. eexists. split; [ reflexivity | left; reflexivity ].
    + right. rewrite Hr. eexists. split; [ reflexivity | right; reflexivity ].
  - left. exists e. split; [ reflexivity | ].
    now rewrite (analyze_flow_overflow cfg w g t e Hp Hf).
Qed.

End VerdictFacts.

(** C4, counterexample: the sample with latency -100 of the repository's
    validation test is served: it gets the OK response and its features
    are in the window and in the history afterwards. *)
Lemma negative_latency_is_served :
  let run := analyze_flow (SK := toy_sklearn) (default_config true) offline
               initial_globals negative_sample in
  returned run = Ok (Some ok_response)
  /\ features_window (globals run) = [[(-100)%float; 512%float; 0%float]]
  /\ map h_features (telemetry_history (globals run))
     = [[(-100)%float; 512%float; 0%float]].
Proof. vm_compute. repeat split; reflexivity. Qed.

(** C4, amended: a sample with a negative latency, input_length or errors
    is not rejected. Like every sample that enters the pipeline (metrics
    library present, integers within the doubles) its feature vector is
    appended to the window and its entry to the history, and it is scored
    whenever a detector with a true truth value is published and the window
    holds at least 10 vectors. *)
Theorem negative_values_enter_the_pipeline :
  forall (SK : Sklearn) (DT : Datetime) (cfg : Config) (w : World) (g : Globals)
         (t : TelemetryData) (f : list float),
    PROMETHEUS_AVAILABLE cfg = true ->
    extract_features t = Ok f ->
    ((latency t <? 0)%float = true \/ (input_length t < 0)%Z \/ (errors t < 0)%Z) ->
    let run := analyze_flow cfg w g t in
    features_window (globals run) = features_window g ++ [f]
    /\ telemetry_history (globals run)
       = Py.deque_append (SENTINEL_HISTORY_MAX cfg) (telemetry_history g)
           {| h_features := f;
              h_telemetry := sample run;
              h_timestamp := isoformat match timestamp t with
                                       | Some given => given
                                       | None => utcnow w
                                       end |}
    /\ (forall det,
          anomaly_detector (globals run) = Some det ->
          forest_bool det = Ok true ->
          10 <= List.length (features_window (globals run)) ->
          scored (trace run) = true).
Proof.
  intros SK DT cfg w g t f Hp Hf _ run.
  destruct (globals_after_request cfg w g t f Hp Hf) as [Hw Hh].
  split; [ exact Hw | split; [ exact Hh | ] ].
  intros det Hd Hb Hn. subst run.
  rewrite (scored_request cfg w g t f Hp Hf).
  now apply detect_scores with det.
Qed.

Lemma negative_values_enter_the_pipeline_witness :
  features_window
    (globals (analyze_flow (SK := toy_sklearn) (default_config true) offline
                initial_globals negative_sample))
  = features_window (@initial_globals toy_sklearn iso_datetime)
    ++ [[(-100)%float; 512%float; 0%float]].
Proof.
  apply (negative_values_enter_the_pipeline toy_sklearn iso_datetime
           (default_config true) offline initial_globals negative_sample
           [(-100)%float; 512%float; 0%float]);
    [ reflexivity | reflexivity | left; reflexivity ].
Defined.


(** Requests that stay below the scoring guard: a request that enters the
    pipeline (metrics library present, integers within the doubles) gets
    the OK response and is not scored when it arrives while no detector
    exists and its append does not bring the window to a multiple of 50,
    and also when the window holds fewer than 10 vectors after its append
    and the detector, if there is one, has a truth value. *)
Theorem unscored_requests_are_ok :
  forall (SK : Sklearn) (DT : Datetime) (cfg : Config) (w : World) (g : Globals)
         (t : TelemetryData) (f : list float),
    PROMETHEUS_AVAILABLE cfg = true ->
    extract_features t = Ok f ->
    (anomaly_detector g = None /\ (List.length (features_window g) + 1) mod 50 <> 0)
    \/ (List.length (features_window g) + 1 < 10
        /\ forall det, anomaly_detector g = Some det -> exists b, forest_bool det = Ok b) ->
    let run := analyze_flow cfg w g t in
    returned run = Ok (Some ok_response)
    /\ scored (trace run) = false
    /\ anomaly_detector (globals run) = anomaly_detector g.
Proof.
  intros SK DT cfg w g t f Hp Hf Hcase run.
  assert (Hidle : rebuilt (snd (maybe_retrain cfg (fst (record_sample cfg w g t f)))) = false).
  { rewrite maybe_retrain_rebuilt. cbn [record_sample fst features_window].
    rewrite length_app. cbn [List.length].
    destruct Hcase as [[_ Hmod] | [Hlen _]].
    - destruct (Nat.eqb_spec ((List.length (features_window g) + 1) mod 50) 0);
        [ contradiction | reflexivity ].
    - destruct (Nat.leb_spec 10 (List.length (features_window g) + 1)); [ lia | ].
      apply andb_false_r. }
  pose proof (maybe_retrain_idle cfg _ Hidle) as Hg2.
  assert (Hrun : run = analyze_flow cfg w g t) by reflexivity.
  rewrite (analyze_flow_on cfg w g t f Hp Hf) in Hrun. cbv zeta in Hrun.
  rewrite Hg2 in Hrun.
  assert (Hscore : scored (trace run) = scored (snd (detect cfg w
            (fst (record_sample cfg w g t f)) f (snd (record_sample cfg w g t f))))).
  { rewrite Hrun. cbn [trace]. rewrite !scored_app, maybe_retrain_not_scored.
    cbn [scored existsb orb]. now rewrite !orb_false_r. }
  rewrite Hscore, Hrun. cbn [returned globals].
  destruct (normal_quiet cfg) as (Hn1 & _ & Hn3).
  split; [ | split; [ | reflexivity ] ];
    unfold detect; cbn [record_sample fst snd anomaly_detector features_window];
    rewrite length_app; cbn [List.length];
    (destruct Hcase as [[Hnone _] | [Hlen Hbool]];
     [ rewrite Hnone; assumption | ]);
    (destruct (anomaly_detector g) as [det | ]; [ | assumption ]);
    (destruct (Hbool det eq_refl) as [b Hb]; rewrite Hb);
    (destruct b; [ | assumption ]);
    (destruct (Nat.leb_spec 10 (List.length (features_window g) + 1)); [ lia | assumption ]).
Qed.

Lemma unscored_requests_are_ok_witness :
  returned (analyze_flow (SK := toy_sklearn) (default_config true) offline
              initial_globals baseline_sample)
  = Ok (Some ok_response).
Proof.
  apply (unscored_requests_are_ok toy_sklearn iso_datetime (default_config true)
           offline initial_globals baseline_sample [200%float; 1000%float; 0%float]);
    [ reflexivity | reflexivity | left; split; [ reflexivity | discriminate ] ].
Defined.

(** C8, counterexample: the threat response of the fiftieth request reports
    the score 0.03125 and the confidence 0.3125, where the specification's
    formula with scale factor 20 gives 1.0, on the reported score and on
    the detector's decision value alike. *)
Lemma confidence_is_not_the_spec_formula :
  let arrival := fst (toy_serve (default_config true) (repeat baseline_sample 49)) in
  let run := analyze_flow (SK := toy_sklearn) (default_config true) offline
               arrival outlier_sample in
  returned run
  = Ok (Some (threat_response
                "Unusually high latency detected, possible resource exhaustion or DoS attempt"
                (-0.03125)%float))
  /\ prediction_score (threat_response "" (-0.03125)%float) = Some 0.03125%float
  /\ confidence (threat_response "" (-0.03125)%float) = Some 0.3125%float
  /\ spec_confidence 0.03125 20 = 1%float
  /\ spec_confidence (-0.03125) 20 = 1%float
  /\ (0.3125 =? 1)%float = false.
Proof. vm_compute. repeat split; reflexivity. Qed.

(** C8, amended: on every THREAT_DETECTED response the confidence is
    [min(|d| * 10, 1.0)], where [d] is the value of the detector's
    [decision_function] on the sample's features; the reported
    prediction_score is [-d], and the factor 10 is a literal of the code. *)
Theorem threat_confidence :
  forall (SK : Sklearn) (DT : Datetime) (cfg : Config) (w : World) (g : Globals)
         (t : TelemetryData) (r : AnalysisResponse),
    returned (analyze_flow cfg w g t) = Ok (Some r) ->
    status r = "THREAT_DETECTED" ->
    exists f det d,
      extract_features t = Ok f
      /\ anomaly_detector (globals (analyze_flow cfg w g t)) = Some det
      /\ decision_function det f = Ok d
      /\ predict det f = Ok (-1)%Z
      /\ prediction_score r = Some (- d)%float
      /\ confidence r = Some (Py.min (abs d * 10)%float 1%float)
      /\ action r = Some "freeze".
Proof.
  intros SK DT cfg w g t r Hret Hst.
  destruct (PROMETHEUS_AVAILABLE cfg) eqn:Hp;
    [ | rewrite (analyze_flow_off cfg w g t Hp) in Hret; discriminate ].
  destruct (extract_features t) as [f | e] eqn:Hf;
    [ | rewrite (analyze_flow_overflow cfg w g t e Hp Hf) in Hret; discriminate ].
  rewrite (analyze_flow_on cfg w g t f Hp Hf) in *. cbv zeta in *.
  cbn [returned globals] in *.
  destruct (detect_cases cfg w
              (fst (maybe_retrain cfg (fst (record_sample cfg w g t f)))) f
              (snd (record_sample cfg w g t f)))
    as [(det & e & _ & _ & Hr) | [Hr | (det & d & text & Hd & _ & _ & Hdf & Hpr & _ & Hr)]];
    rewrite Hr in Hret; try discriminate.
  - injection Hret as <-. discriminate.
  - injection Hret as <-. exists f, det, d. repeat split; assumption.
Qed.

Lemma threat_confidence_witness :
  exists f det d,
    extract_features outlier_sample = Ok f
    /\ anomaly_detector
         (globals (analyze_flow (SK := toy_sklearn) (default_config true) offline
                     (fst (toy_serve (default_config true) (repeat baseline_sample 49)))
                     outlier_sample)) = Some det
    /\ decision_function det f = Ok d
    /\ predict det f = Ok (-1)%Z
    /\ prediction_score
         (threat_response
            "Unusually high latency detected, possible resource exhaustion or DoS attempt"
            (-0.03125)%float) = Some (- d)%float
    /\ confidence
         (threat_response
            "Unusually high latency detected, possible resource exhaustion or DoS attempt"
            (-0.03125)%float) = Some (Py.min (abs d * 10)%float 1%float)
    /\ action
         (threat_response
            "Unusually high latency detected, possible resource exhaustion or DoS attempt"
            (-0.03125)%float) = Some "freeze".
Proof.
  apply (threat_confidence toy_sklearn iso_datetime (default_config true) offline
           (fst (toy_serve (default_config true) (repeat baseline_sample 49)))
           outlier_sample); [ vm_compute; reflexivity | reflexivity ].
Defined.

(** ** Sequences of requests *)

Lemma map_tl {A B} (h : A -> B) (l : list A) : map h (tl l) = tl (map h l).
Proof. destruct l; reflexivity. Qed.

Lemma skipn_S_tl {A} (k : nat) (l : list A) : skipn (S k) l = tl (skipn k l).
Proof.
  revert l. induction k as [ | k IH]; intros [ | a l]; try reflexivity.
  change (skipn (S (S k)) (a :: l)) with (skipn (S k) l).
  change (skipn (S k) (a :: l)) with (skipn k l). apply IH.
Qed.

(** The history holds the feature vectors of the window's last [maxlen]
    entries; one more append on both keeps it so. *)
Lemma history_tracks_window {E} (h : E -> list float) (maxlen : nat)
  (history : list E) (window : list (list float)) (entry : E) :
  map h history = skipn (List.length window - maxlen) window ->
  map h (Py.deque_append maxlen history entry)
  = skipn (List.length (window ++ [h entry]) - maxlen) (window ++ [h entry]).
Proof.
  intros Hinv.
  assert (Hlen : List.length history = List.length window - (List.length window - maxlen)).
  { rewrite <- (length_map h history), Hinv. apply length_skipn. }
  unfold Py.deque_append. rewrite !length_app. cbn [List.length].
  destruct (Nat.ltb_spec maxlen (List.length history + 1)) as [Hfull | Hroom].
  - replace (List.length window + 1 - maxlen) with (S (List.length window - maxlen)) by lia.
    rewrite map_tl, map_app, Hinv, skipn_S_tl, skipn_app.
    replace (List.length window - maxlen - List.length window) with 0 by lia.
    reflexivity.
  - replace (List.length window + 1 - maxlen) with 0 by lia.
    replace (List.length window - maxlen) with 0 in Hinv by lia.
    rewrite skipn_0 in *. now rewrite map_app, Hinv.
Qed.

Section ServeFacts.

Context {SK : Sklearn} {DT : Datetime}.

Implicit Types (cfg : Config) (w : World) (g : Globals) (t : TelemetryData)
  (requests : list (World * TelemetryData)).

Lemma accepted_features_app cfg requests requests' :
  accepted_features cfg (requests ++ requests')
  = accepted_features cfg requests ++ accepted_features cfg requests'.
Proof.
  unfold accepted_features.
  destruct (PROMETHEUS_AVAILABLE cfg); [ apply flat_map_app | reflexivity ].
Qed.

Lemma accepted_features_one cfg w t f :
  PROMETHEUS_AVAILABLE cfg = true ->
  extract_features t = Ok f ->
  accepted_features cfg [(w, t)] = [f].
Proof. intros Hp Hf. unfold accepted_features. simpl. now rewrite Hp, Hf. Qed.

(** One request appends its vector, if any, and keeps the history on the
    last entries of the window. *)
Lemma analyze_flow_step cfg w g t :
  features_window (globals (analyze_flow cfg w g t))
  = features_window g ++ accepted_features cfg [(w, t)]
  /\ (map h_features (telemetry_history g)
      = skipn (List.length (features_window g) - SENTINEL_HISTORY_MAX cfg)
          (features_window g) ->
      map h_features (telemetry_history (globals (analyze_flow cfg w g t)))
      = skipn (List.length (features_window (globals (analyze_flow cfg w g t)))
               - SENTINEL_HISTORY_MAX cfg)
          (features_window (globals (analyze_flow cfg w g t)))).
Proof.
  destruct (PROMETHEUS_AVAILABLE cfg) eqn:Hp.
  - destruct (extract_features t) as [f | e] eqn:Hf.
    + destruct (globals_after_request cfg w g t f Hp Hf) as [Hw Hh].
      rewrite Hw, Hh, (accepted_features_one cfg w t f Hp Hf).
      split; [ reflexivity | ]. intros Hinv.
      exact (history_tracks_window h_features _ _ _
               {| h_features := f;
                  h_telemetry := sample (analyze_flow cfg w g t);
                  h_timestamp := isoformat match timestamp t with
                                           | Some given => given
                                           | None => utcnow w
                                           end |} Hinv).
    + rewrite (analyze_flow_overflow cfg w g t e Hp Hf). cbn [globals].
      unfold accepted_features. simpl. rewrite Hp, Hf, app_nil_r. now split.
  - rewrite (analyze_flow_off cfg w g t Hp). cbn [globals].
    unfold accepted_features. rewrite Hp, app_nil_r. now split.
Qed.

Lemma serve_cons cfg g w t requests :
  fst (serve cfg g ((w, t) :: requests))
  = fst (serve cfg (globals (analyze_flow cfg w g t)) requests).
Proof.
  cbn [serve]. destruct (serve cfg (globals (analyze_flow cfg w g t)) requests).
  reflexivity.
Qed.

Lemma serve_globals cfg requests :
  forall g,
    map h_features (telemetry_history g)
    = skipn (List.length (features_window g) - SENTINEL_HISTORY_MAX cfg)
        (features_window g) ->
    features_window (fst (serve cfg g requests))
    = features_window g ++ accepted_features cfg requests
    /\ map h_features (telemetry_history (fst (serve cfg g requests)))
       = skipn (List.length (features_window (fst (serve cfg g requests)))
                - SENTINEL_HISTORY_MAX cfg)
           (features_window (fst (serve cfg g requests))).
Proof.
  induction requests as [ | [w t] requests IH]; intros g Hinv.
  - cbn [serve fst]. unfold accepted_features.
    destruct (PROMETHEUS_AVAILABLE cfg); cbn [flat_map]; rewrite app_nil_r; now split.
  - rewrite serve_cons.
    destruct (analyze_flow_step cfg w g t) as [Hw Hh].
    destruct (IH _ (Hh Hinv)) as [IHw IHh].
    split; [ | exact IHh ].
    rewrite IHw, Hw, <- app_assoc.
    now rewrite <- accepted_features_app.
Qed.

Lemma serve_from_start cfg requests :
  features_window (fst (serve cfg initial_globals requests))
  = accepted_features cfg requests
  /\ map h_features (telemetry_history (fst (serve cfg initial_globals requests)))
     = skipn (appends cfg requests - SENTINEL_HISTORY_MAX cfg)
         (accepted_features cfg requests).
Proof.
  destruct (serve_globals cfg requests initial_globals) as [Hw Hh]; [ reflexivity | ].
  cbn [initial_globals features_window app] in Hw.
  rewrite Hw in Hh. now split.
Qed.

End ServeFacts.

(** C2, counterexample: with the default capacity 1000, after 1001 appends
    the training window holds 1001 vectors, the oldest still in front. *)
Lemma features_window_is_unbounded :
  let g := fst (toy_serve (default_config true) overflow_requests) in
  List.length overflow_requests = 1001
  /\ SENTINEL_HISTORY_MAX (default_config true) = 1000
  /\ List.length (features_window g) = 1001
  /\ hd_error (features_window g) = Some [150%float; 900%float; 1%float]
  /\ (List.length (features_window g) <=? SENTINEL_HISTORY_MAX (default_config true))%nat
     = false.
Proof. vm_compute. repeat split; reflexivity. Qed.

(** C2, amended: the training window [features_window] is an unbounded
    list: after any sequence of requests it holds every appended vector, in
    order, none evicted. The bounded FIFO buffer of capacity C (default
    1000) is the history [telemetry_history]: it holds the entries of the
    last C appended vectors, so its size never exceeds C, and C+1 appends
    leave exactly C entries with the oldest one evicted. *)
Theorem window_unbounded_history_bounded :
  forall (SK : Sklearn) (DT : Datetime) (cfg : Config)
         (requests : list (World * TelemetryData)),
    let g := fst (serve cfg initial_globals requests) in
    let capacity := SENTINEL_HISTORY_MAX cfg in
    features_window g = accepted_features cfg requests
    /\ List.length (features_window g) = appends cfg requests
    /\ map h_features (telemetry_history g)
       = skipn (appends cfg requests - capacity) (features_window g)
    /\ List.length (telemetry_history g) = Nat.min (appends cfg requests) capacity
    /\ (appends cfg requests = capacity + 1 ->
        List.length (telemetry_history g) = capacity
        /\ map h_features (telemetry_history g) = tl (features_window g)).
Proof.
  intros SK DT cfg requests g capacity.
  destruct (serve_from_start cfg requests) as [Hw Hh]. fold g in Hw, Hh.
  assert (Hlen : List.length (telemetry_history g)
                 = Nat.min (appends cfg requests) capacity).
  { rewrite <- (length_map h_features), Hh, length_skipn. unfold appends, capacity. lia. }
  rewrite Hw. repeat split; auto.
  - rewrite Hlen. lia.
  - rewrite Hh. fold capacity. replace (appends cfg requests - capacity) with 1 by lia.
    reflexivity.
Qed.

(** ** Re-training *)

Section RetrainFacts.

Context {SK : Sklearn} {DT : Datetime}.

(** When [fit] raises, the global holds the estimator built on line 148,
    whatever detector was published before. *)
Lemma update_anomaly_detector_failure (cfg : Config) (g : Globals) (e : exn) :
  10 <= List.length (features_window g) ->
  fit (IsolationForest (SENTINEL_CONTAMINATION cfg)) (features_window g) = Raise e ->
  update_anomaly_detector cfg g
  = ({| telemetry_history := telemetry_history g;
        anomaly_detector := Some (IsolationForest (SENTINEL_CONTAMINATION cfg));
        features_window := features_window g |},
     [NewForest; Fit (features_window g); LogError e]).
Proof.
  intros Hn He. unfold update_anomaly_detector. rewrite He.
  destruct (Nat.ltb_spec (List.length (features_window g)) 10); [ lia | reflexivity ].
Qed.

End RetrainFacts.

(** C7: counting the appends from the start of the service, a request that
    enters the pipeline (metrics library present, integers within the
    doubles) rebuilds the model exactly when the counter after its append
    is a multiple of 50 and the window holds at least 10 vectors; the
    counter is the length of the window. The rebuild makes a new estimator
    from the configuration and fits it on the whole window, without regard
    to the detector published before; without a rebuild the detector stays
    as it was. *)
Theorem retrain_cadence :
  forall (SK : Sklearn) (DT : Datetime) (cfg : Config)
         (requests : list (World * TelemetryData)) (w : World) (t : TelemetryData)
         (f : list float),
    PROMETHEUS_AVAILABLE cfg = true ->
    extract_features t = Ok f ->
    let g := fst (serve cfg initial_globals requests) in
    let run := analyze_flow cfg w g t in
    let counter := appends cfg (requests ++ [(w, t)]) in
    let window := features_window (globals run) in
    List.length window = counter
    /\ (rebuilt (trace run) = true <-> counter mod 50 = 0 /\ 10 <= List.length window)
    /\ (rebuilt (trace run) = true ->
        In (Fit window) (trace run)
        /\ anomaly_detector (globals run)
           = Some match fit (IsolationForest (SENTINEL_CONTAMINATION cfg)) window with
                  | Ok trained => trained
                  | Raise _ => IsolationForest (SENTINEL_CONTAMINATION cfg)
                  end)
    /\ (rebuilt (trace run) = false ->
        anomaly_detector (globals run) = anomaly_detector g).
Proof.
  intros SK DT cfg requests w t f Hp Hf g run counter window.
  destruct (serve_from_start cfg requests) as [Hstart _]. fold g in Hstart.
  destruct (globals_after_request cfg w g t f Hp Hf) as [Hw _].
  fold run in Hw. fold window in Hw.
  assert (Hcount : List.length window = counter).
  { unfold counter, appends.
    rewrite accepted_features_app, (accepted_features_one cfg w t f Hp Hf).
    now rewrite Hw, Hstart. }
  assert (Hrun : run = analyze_flow cfg w g t) by reflexivity.
  rewrite (analyze_flow_on cfg w g t f Hp Hf) in Hrun. cbv zeta in Hrun.
  assert (Hg1 : features_window (fst (record_sample cfg w g t f)) = window).
  { now rewrite Hw. }
  assert (Hreb : rebuilt (trace run)
                 = rebuilt (snd (maybe_retrain cfg (fst (record_sample cfg w g t f))))).
  { unfold run. apply rebuilt_request; assumption. }
  split; [ exact Hcount | ].
  split; [ | split ].
  - rewrite Hreb, maybe_retrain_rebuilt, Hg1, andb_true_iff, Nat.eqb_eq, Nat.leb_le.
    now rewrite Hcount.
  - rewrite Hreb. intros H.
    destruct (maybe_retrain_publishes cfg _ H) as [Hin Hdet].
    rewrite Hg1 in Hin, Hdet. rewrite Hrun. cbn [trace globals].
    split; [ | exact Hdet ].
    apply in_or_app. right. apply in_or_app. left. exact Hin.
  - rewrite Hreb. intros H. rewrite Hrun. cbn [globals].
    now rewrite (maybe_retrain_idle cfg _ H).
Qed.

Lemma retrain_cadence_witness :
  List.length
    (features_window
       (globals (analyze_flow (SK := toy_sklearn) (default_config true) offline
                   (fst (serve (default_config true) initial_globals
                           (map (fun s => (offline, s)) (repeat baseline_sample 49))))
                   outlier_sample)))
  = appends (default_config true)
      (map (fun s => (offline, s)) (repeat baseline_sample 49) ++ [(offline, outlier_sample)]).
Proof.
  exact (proj1 (retrain_cadence toy_sklearn iso_datetime (default_config true)
                  (map (fun s => (offline, s)) (repeat baseline_sample 49))
                  offline outlier_sample [20000%float; 20000%float; 10%float]
                  eq_refl eq_refl)).
Defined.

(** C3, the code where the claim fails: the service has trained a detector
    on the first fifty samples; the window then takes a sample beyond the
    single-precision range, so the training of the hundredth request
    raises. The error is logged, and the global no longer holds the
    detector of the fiftieth request but the new untrained estimator. *)
Theorem failed_rebuild_replaces_the_forest :
  let cfg := default_config true in
  let before := fst (toy_serve cfg (firstn 99 hundred_requests)) in
  let run := analyze_flow (SK := toy_sklearn) cfg offline before baseline_sample in
  anomaly_detector before
  = Some (Fitted (repeat [200%float; 1000%float; 0%float] 50))
  /\ List.length (features_window (globals run)) = 100
  /\ toy_fit Unfitted (features_window (globals run))
     = Raise (LibraryError "Input X contains NaN, infinity or a value too large")
  /\ existsb (fun e => match e with LogError _ => true | _ => false end) (trace run) = true
  /\ anomaly_detector (globals run) = Some Unfitted
  /\ globals run = fst (toy_serve cfg hundred_requests).
Proof. vm_compute. repeat split; reflexivity. Qed.

(** * Further properties of the service *)

(** ** Failures while scoring and explaining *)

(** X1: when the detector is asked and [decision_function] or [predict]
    raises, the request still gets the OK response: the error is logged,
    and the sample stays appended to the window. *)
Theorem scoring_errors_fail_open :
  forall (SK : Sklearn) (DT : Datetime) (cfg : Config) (w : World) (g : Globals)
         (t : TelemetryData) (f : list float) (det : Forest) (e : exn),
    PROMETHEUS_AVAILABLE cfg = true ->
    extract_features t = Ok f ->
    let run := analyze_flow cfg w g t in
    anomaly_detector (globals run) = Some det ->
    forest_bool det = Ok true ->
    10 <= List.length (features_window (globals run)) ->
    decision_function det f = Raise e
    \/ (exists d, decision_function det f = Ok d /\ predict det f = Raise e) ->
    returned run = Ok (Some ok_response)
    /\ In (LogError e) (trace run)
    /\ posts (trace run) = 0
    /\ features_window (globals run) = features_window g ++ [f].
Proof.
  intros SK DT cfg w g t f det e Hp Hf run Hd Hb Hn Hraise.
  destruct (globals_after_request cfg w g t f Hp Hf) as [Hw _]. fold run in Hw.
  assert (Hrun : run = analyze_flow cfg w g t) by reflexivity.
  rewrite (analyze_flow_on cfg w g t f Hp Hf) in Hrun. cbv zeta in Hrun.
  rewrite Hrun in Hd, Hn. cbn [globals] in Hd, Hn.
  assert (Hidle : posts (snd (maybe_retrain cfg (fst (record_sample cfg w g t f)))) = 0).
  { unfold maybe_retrain, update_anomaly_detector.
    destruct (_ mod 50 =? 0)%nat; [ | reflexivity ].
    destruct (_ <? 10)%nat; [ reflexivity | ]. destruct (fit _ _); reflexivity. }
  split; [ | split; [ | split; [ | exact Hw ] ] ]; rewrite Hrun;
    cbn [returned trace]; unfold detect; rewrite Hd, Hb;
    (destruct (Nat.leb_spec 10 (List.length (features_window
        (fst (maybe_retrain cfg (fst (record_sample cfg w g t f))))))); [ | lia ]);
    unfold score, after, normal; rewrite Hp;
    destruct Hraise as [Hdf | [d [Hdf Hpr]]]; rewrite Hdf; try rewrite Hpr;
    cbn [fst snd].
  - reflexivity.
  - reflexivity.
  - apply in_or_app. right. apply in_or_app. right. simpl. auto.
  - apply in_or_app. right. apply in_or_app. right. simpl. auto.
  - unfold posts in *. rewrite !filter_app, !length_app, Hidle. reflexivity.
  - unfold posts in *. rewrite !filter_app, !length_app, Hidle. reflexivity.
Qed.

Lemma scoring_errors_fail_open_witness :
  returned (analyze_flow (SK := strict_sklearn) (default_config true) offline
              after_fifty oversized_sample)
  = Ok (Some ok_response).
Proof.
  refine (proj1 (scoring_errors_fail_open strict_sklearn iso_datetime
                   (default_config true) offline after_fifty oversized_sample
                   [0x1p130%float; 1000%float; 0%float]
                   (Fitted (repeat [200%float; 1000%float; 0%float] 50))
                   (LibraryError "Input X contains NaN, infinity or a value too large")
                   eq_refl eq_refl _ eq_refl _ _)).
  - vm_compute. reflexivity.
  - vm_compute. lia.
  - left. reflexivity.
Defined.

Lemma posts_app (tr1 tr2 : list event) : posts (tr1 ++ tr2) = posts tr1 + posts tr2.
Proof. unfold posts. now rewrite filter_app, length_app. Qed.

Lemma posts_inc_if (cfg : Config) (metric : string) : posts (inc_if cfg metric) = 0.
Proof. unfold inc_if. destruct (PROMETHEUS_AVAILABLE cfg); reflexivity. Qed.

Lemma fallback_reason_nonempty (latency input_len errors : float) :
  fallback_reason latency input_len errors <> "".
Proof.
  unfold fallback_reason.
  destruct (Py.gt latency 5000); [ discriminate | ].
  destruct (Py.gt errors 5); [ discriminate | ].
  destruct (Py.gt input_len 10000); discriminate.
Qed.

Section ExplainShape.

Context {DT : Datetime}.

(** With three features or more, [explain_async] returns a text that is
    not empty, after exactly one POST. *)
Lemma explain_async_three (cfg : Config) (outcome : http_outcome)
  (a b c : float) (rest : list float) (payload : TelemetryData) :
  exists text tr,
    explain_async cfg outcome (a :: b :: c :: rest) payload
    = (Ok text, HttpPost (route payload) :: tr)
    /\ posts tr = 0 /\ text <> "".
Proof.
  unfold explain_async.
  destruct (primary_explanation cfg outcome) as [[[text | ] | e] tr] eqn:Hprim.
  - exists text, tr. split; [ reflexivity | ]. split.
    + unfold primary_explanation in Hprim.
      destruct outcome as [e | code body]; [ discriminate | ].
      destruct (code =? 200)%Z; [ | discriminate ].
      destruct (bind body message_content); [ | discriminate ].
      destruct (Py.str_bool a0); [ | discriminate ].
      injection Hprim as _ <-. apply posts_inc_if.
    + destruct (primary_explanation_some cfg outcome text) as (_ & _ & _ & _ & _ & H & _);
        [ now rewrite Hprim | exact H ].
  - exists (fallback_reason a b c), tr. split; [ reflexivity | ]. split.
    + unfold primary_explanation in Hprim.
      destruct outcome as [e | code body]; [ discriminate | ].
      destruct (code =? 200)%Z; [ | now injection Hprim as <- ].
      destruct (bind body message_content); [ | discriminate ].
      destruct (Py.str_bool a0); [ discriminate | now injection Hprim as <- ].
    + apply fallback_reason_nonempty.
  - exists (fallback_reason a b c), (tr ++ LogWarning e :: inc_if cfg "LLM_FAILURES").
    split; [ reflexivity | ]. split.
    + rewrite posts_app. change (LogWarning e :: inc_if cfg "LLM_FAILURES")
        with ([LogWarning e] ++ inc_if cfg "LLM_FAILURES").
      rewrite posts_app, posts_inc_if.
      unfold primary_explanation in Hprim.
      destruct outcome as [e' | code body]; [ now injection Hprim as _ <- | ].
      destruct (code =? 200)%Z; [ | discriminate ].
      destruct (bind body message_content); [ | now injection Hprim as _ <- ].
      destruct (Py.str_bool a0); discriminate.
    + apply fallback_reason_nonempty.
Qed.

End ExplainShape.

(** X2: [explain_async] needs three features. On a shorter list it raises
    [IndexError], whatever the server would answer, after a logged warning
    and without any POST; on a list of three or more it never raises: it
    returns a text that is not empty, after exactly one POST. *)
Theorem explain_async_needs_three_features :
  forall (DT : Datetime) (cfg : Config) (outcome : http_outcome)
         (features : list float) (payload : TelemetryData),
    (List.length features < 3 ->
     explain_async cfg outcome features payload
     = (Raise IndexError, LogWarning IndexError :: inc_if cfg "LLM_FAILURES")
     /\ posts (snd (explain_async cfg outcome features payload)) = 0)
    /\ (3 <= List.length features ->
        exists text,
          fst (explain_async cfg outcome features payload) = Ok text
          /\ text <> ""
          /\ posts (snd (explain_async cfg outcome features payload)) = 1).
Proof.
  intros DT cfg outcome features payload. split.
  - intros Hshort.
    assert (Hraise : explain_async cfg outcome features payload
                     = (Raise IndexError, LogWarning IndexError :: inc_if cfg "LLM_FAILURES")).
    { destruct features as [ | a [ | b [ | c rest ] ] ]; try reflexivity.
      simpl in Hshort. lia. }
    split; [ exact Hraise | ].
    rewrite Hraise. cbn [snd].
    change (LogWarning IndexError :: inc_if cfg "LLM_FAILURES")
      with ([LogWarning IndexError] ++ inc_if cfg "LLM_FAILURES").
    now rewrite posts_app, posts_inc_if.
  - intros Hlong.
    destruct features as [ | a [ | b [ | c rest ] ] ]; try (simpl in Hlong; lia).
    destruct (explain_async_three cfg outcome a b c rest payload)
      as (text & tr & Heq & Hposts & Htext).
    exists text. rewrite Heq. cbn [fst snd]. repeat split; auto.
    change (HttpPost (route payload) :: tr) with ([HttpPost (route payload)] ++ tr).
    now rewrite posts_app, Hposts.
Qed.

Section ContactFacts.

Context {SK : Sklearn} {DT : Datetime}.

(** What [detect] does on a vector of three features: no POST and no
    threat, or one POST and the threat response with a reason. *)
Lemma detect_contact (cfg : Config) (w : World) (g : Globals)
  (a b c : float) (t : TelemetryData) :
  (posts (snd (detect cfg w g [a; b; c] t)) = 0
   /\ ((exists e, fst (detect cfg w g [a; b; c] t) = Raise e)
       \/ fst (detect cfg w g [a; b; c] t) = Ok (Some ok_response)))
  \/ (posts (snd (detect cfg w g [a; b; c] t)) = 1
      /\ exists text d,
           text <> ""
           /\ fst (detect cfg w g [a; b; c] t) = Ok (Some (threat_response text d))).
Proof.
  assert (Hnormal : posts (snd (normal cfg)) = 0
                    /\ fst (normal cfg) = Ok (Some ok_response)).
  { unfold normal. destruct (PROMETHEUS_AVAILABLE cfg); now split. }
  destruct Hnormal as [Hn0 Hn1].
  unfold detect.
  destruct (anomaly_detector g) as [det | ]; [ | left; auto ].
  destruct (forest_bool det) as [[ | ] | e];
    [ | left; auto | left; split; [ reflexivity | left; exists e; reflexivity ] ].
  destruct (10 <=? List.length (features_window g))%nat; [ | left; auto ].
  unfold score, after.
  destruct (decision_function det [a; b; c]) as [d | e];
    [ | left; cbn [fst snd]; rewrite posts_app, Hn0; auto ].
  destruct (predict det [a; b; c]) as [p | e];
    [ | left; cbn [fst snd]; rewrite posts_app, Hn0; auto ].
  destruct (p =? -1)%Z; [ | left; cbn [fst snd]; rewrite posts_app, Hn0; auto ].
  destruct (explain_async_three cfg (http w) a b c [] t)
    as (text & tr & -> & Hposts & Htext).
  right. cbn [fst snd]. split; [ | eauto ].
  change (HttpPost (route t) :: tr) with ([HttpPost (route t)] ++ tr).
  rewrite !posts_app, Hposts. destruct (PROMETHEUS_AVAILABLE cfg); reflexivity.
Qed.

Lemma maybe_retrain_posts (cfg : Config) (g : Globals) :
  posts (snd (maybe_retrain cfg g)) = 0.
Proof.
  unfold maybe_retrain, update_anomaly_detector.
  destruct (_ mod 50 =? 0)%nat; [ | reflexivity ].
  destruct (_ <? 10)%nat; [ reflexivity | ]. destruct (fit _ _); reflexivity.
Qed.

(** The outcome of a request together with its POSTs. *)
Lemma request_contact (cfg : Config) (w : World) (g : Globals) (t : TelemetryData) :
  (posts (trace (analyze_flow cfg w g t)) = 0
   /\ (returned (analyze_flow cfg w g t) = Ok None
       \/ (exists e, returned (analyze_flow cfg w g t) = Raise e)
       \/ returned (analyze_flow cfg w g t) = Ok (Some ok_response)))
  \/ (posts (trace (analyze_flow cfg w g t)) = 1
      /\ exists text d,
           text <> ""
           /\ returned (analyze_flow cfg w g t) = Ok (Some (threat_response text d))).
Proof.
  destruct (PROMETHEUS_AVAILABLE cfg) eqn:Hp;
    [ | rewrite (analyze_flow_off cfg w g t Hp); left; cbn; auto ].
  destruct (extract_features t) as [f | e] eqn:Hf;
    [ | rewrite (analyze_flow_overflow cfg w g t e Hp Hf); left; cbn; eauto ].
  rewrite (analyze_flow_on cfg w g t f Hp Hf). cbv zeta. cbn [returned trace].
  destruct (extract_features_shape t f Hf) as (b & c & ->).
  rewrite !posts_app, maybe_retrain_posts. cbn [posts filter List.length].
  rewrite Nat.add_0_r. cbn [Nat.add].
  destruct (detect_contact cfg w
              (fst (maybe_retrain cfg (fst (record_sample cfg w g t [latency t; b; c]))))
              (latency t) b c (snd (record_sample cfg w g t [latency t; b; c])))
    as [[H0 [[e He] | Hok]] | [H1 Hthreat]].
  - left. split; [ exact H0 | right; left; eauto ].
  - left. split; [ exact H0 | right; right; exact Hok ].
  - right. split; [ exact H1 | exact Hthreat ].
Qed.

End ContactFacts.

(** X3: a request contacts the explanation server at most once, and it
    does so exactly when it is answered THREAT_DETECTED: no sample that is
    answered OK, and no request that fails, leaves the process. *)
Theorem explanation_server_contact :
  forall (SK : Sklearn) (DT : Datetime) (cfg : Config) (w : World) (g : Globals)
         (t : TelemetryData),
    let run := analyze_flow cfg w g t in
    posts (trace run) <= 1
    /\ (posts (trace run) = 1
        <-> exists r, returned run = Ok (Some r) /\ status r = "THREAT_DETECTED").
Proof.
  intros SK DT cfg w g t run. subst run.
  destruct (request_contact cfg w g t)
    as [[H0 Hret] | [H1 (text & d & Htext & Hret)]].
  - rewrite H0. split; [ lia | ]. split; [ discriminate | ].
    intros (r & Hr & Hst). exfalso.
    destruct Hret as [Hret | [[e Hret] | Hret]]; rewrite Hret in Hr; try discriminate.
    injection Hr as <-. discriminate.
  - rewrite H1. split; [ lia | ]. split; [ | reflexivity ].
    intros _. rewrite Hret. eexists. split; reflexivity.
Qed.

(** X4: the responses of the handler have two shapes only. One with status
    OK carries no other field; one with status THREAT_DETECTED carries the
    action freeze, a reason that is not empty, a score and a confidence. *)
Theorem response_shapes :
  forall (SK : Sklearn) (DT : Datetime) (cfg : Config) (w : World) (g : Globals)
         (t : TelemetryData) (r : AnalysisResponse),
    returned (analyze_flow cfg w g t) = Ok (Some r) ->
    (status r = "OK" /\ action r = None /\ reason r = None
     /\ prediction_score r = None /\ confidence r = None)
    \/ (status r = "THREAT_DETECTED" /\ action r = Some "freeze"
        /\ exists text score conf,
             text <> "" /\ reason r = Some text
             /\ prediction_score r = Some score /\ confidence r = Some conf).
Proof.
  intros SK DT cfg w g t r Hr.
  destruct (request_contact cfg w g t)
    as [[_ [Hret | [[e Hret] | Hret]]] | [_ (text & d & Htext & Hret)]];
    rewrite Hret in Hr; try discriminate; injection Hr as <-.
  - left. repeat split.
  - right. split; [ reflexivity | ]. split; [ reflexivity | ].
    exists text. eexists. eexists. repeat split. exact Htext.
Qed.

Lemma response_shapes_witness :
  (status ok_response = "OK" /\ action ok_response = None /\ reason ok_response = None
   /\ prediction_score ok_response = None /\ confidence ok_response = None)
  \/ (status ok_response = "THREAT_DETECTED" /\ action ok_response = Some "freeze"
      /\ exists text score conf,
           text <> "" /\ reason ok_response = Some text
           /\ prediction_score ok_response = Some score
           /\ confidence ok_response = Some conf).
Proof.
  exact (response_shapes toy_sklearn iso_datetime (default_config true) offline
           initial_globals baseline_sample ok_response eq_refl).
Defined.

(** ** Invariants of the globals *)

Lemma div50_succ (n : nat) :
  S n / 50 = n / 50 + (if (S n mod 50 =? 0)%nat then 1 else 0).
Proof.
  pose proof (Nat.div_mod_eq n 50) as Hn.
  pose proof (Nat.mod_upper_bound n 50) as Hr.
  pose proof (Nat.div_mod_eq (S n) 50) as Hn'.
  pose proof (Nat.mod_upper_bound (S n) 50) as Hr'.
  destruct (Nat.eqb_spec (S n mod 50) 0); lia.
Qed.

Lemma mod50_zero_large (n : nat) : S n mod 50 = 0 -> 50 <= S n /\ 50 * (S n / 50) = S n.
Proof.
  intros H. pose proof (Nat.div_mod_eq (S n) 50) as Hn. rewrite H in Hn. lia.
Qed.

Section InvariantFacts.

Context {SK : Sklearn} {DT : Datetime}.

Implicit Types (cfg : Config) (w : World) (g : Globals) (t : TelemetryData)
  (requests : list (World * TelemetryData)).

(** A property of the globals that every request keeps holds after any
    sequence of requests. *)
Lemma serve_invariant cfg (P : Globals -> Prop) :
  (forall w g t, P g -> P (globals (analyze_flow cfg w g t))) ->
  forall requests g, P g -> P (fst (serve cfg g requests)).
Proof.
  intros Hstep. induction requests as [ | [w t] requests IH]; intros g Hg.
  - exact Hg.
  - rewrite serve_cons. apply IH, Hstep, Hg.
Qed.

Lemma serve_cons_runs cfg g w t requests :
  snd (serve cfg g ((w, t) :: requests))
  = analyze_flow cfg w g t :: snd (serve cfg (globals (analyze_flow cfg w g t)) requests).
Proof.
  cbn [serve]. destruct (serve cfg (globals (analyze_flow cfg w g t)) requests).
  reflexivity.
Qed.

(** A request that appends nothing leaves the globals alone and re-trains
    nothing. *)
Lemma request_without_append cfg w g t :
  accepted_features cfg [(w, t)] = [] ->
  globals (analyze_flow cfg w g t) = g
  /\ rebuilt (trace (analyze_flow cfg w g t)) = false.
Proof.
  intros Hacc. destruct (PROMETHEUS_AVAILABLE cfg) eqn:Hp.
  - destruct (extract_features t) as [f | e] eqn:Hf.
    + rewrite (accepted_features_one cfg w t f Hp Hf) in Hacc. discriminate.
    + rewrite (analyze_flow_overflow cfg w g t e Hp Hf). now split.
  - rewrite (analyze_flow_off cfg w g t Hp). now split.
Qed.

Lemma accepted_features_cases cfg w t :
  accepted_features cfg [(w, t)] = []
  \/ exists f, PROMETHEUS_AVAILABLE cfg = true /\ extract_features t = Ok f
               /\ accepted_features cfg [(w, t)] = [f].
Proof.
  destruct (PROMETHEUS_AVAILABLE cfg) eqn:Hp.
  - destruct (extract_features t) as [f | e] eqn:Hf.
    + right. exists f. auto using accepted_features_one.
    + left. unfold accepted_features. simpl. now rewrite Hp, Hf.
  - left. unfold accepted_features. now rewrite Hp.
Qed.

(** The detector after a request that appends [f]. *)
Lemma detector_after_append cfg w g t f :
  PROMETHEUS_AVAILABLE cfg = true ->
  extract_features t = Ok f ->
  anomaly_detector (globals (analyze_flow cfg w g t))
  = (if (S (List.length (features_window g)) mod 50 =? 0)%nat
     then Some (published cfg (features_window g ++ [f]))
     else anomaly_detector g)
  /\ rebuilt (trace (analyze_flow cfg w g t))
     = (S (List.length (features_window g)) mod 50 =? 0)%nat.
Proof.
  intros Hp Hf.
  rewrite (rebuilt_request cfg w g t f Hp Hf).
  rewrite (analyze_flow_on cfg w g t f Hp Hf). cbv zeta. cbn [globals].
  pose proof (maybe_retrain_rebuilt cfg (fst (record_sample cfg w g t f))) as Hreb.
  assert (Hlen : List.length (features_window (fst (record_sample cfg w g t f)))
                 = S (List.length (features_window g))).
  { cbn [record_sample fst features_window]. rewrite length_app. simpl. lia. }
  rewrite Hlen in Hreb.
  destruct (Nat.eqb_spec (S (List.length (features_window g)) mod 50) 0) as [Hz | Hnz].
  - destruct (mod50_zero_large _ Hz) as [Hbig _].
    destruct (Nat.leb_spec 10 (S (List.length (features_window g)))); [ | lia ].
    cbn [andb] in Hreb. split; [ | exact Hreb ].
    destruct (maybe_retrain_publishes cfg _ Hreb) as [_ Hdet].
    rewrite Hdet. reflexivity.
  - cbn [andb] in Hreb. split; [ | exact Hreb ].
    now rewrite (maybe_retrain_idle cfg _ Hreb).
Qed.

(** The detector is always the one made on the longest prefix of the
    window whose length is a multiple of 50. *)
Lemma detector_tracks_window cfg w g t :
  anomaly_detector g
  = (if (List.length (features_window g) <? 50)%nat then None
     else Some (published cfg
                  (firstn (50 * (List.length (features_window g) / 50))
                     (features_window g)))) ->
  anomaly_detector (globals (analyze_flow cfg w g t))
  = (if (List.length (features_window (globals (analyze_flow cfg w g t))) <? 50)%nat
     then None
     else Some (published cfg
                  (firstn (50 * (List.length
                                   (features_window (globals (analyze_flow cfg w g t))) / 50))
                     (features_window (globals (analyze_flow cfg w g t)))))).
Proof.
  intros Hinv.
  destruct (accepted_features_cases cfg w t) as [Hnone | (f & Hp & Hf & _)].
  - destruct (request_without_append cfg w g t Hnone) as [-> _]. exact Hinv.
  - destruct (globals_after_request cfg w g t f Hp Hf) as [Hw _].
    destruct (detector_after_append cfg w g t f Hp Hf) as [Hdet _].
    rewrite Hdet, Hw, length_app. cbn [List.length].
    replace (List.length (features_window g) + 1) with (S (List.length (features_window g)))
      by lia.
    set (n := List.length (features_window g)) in *.
    pose proof (div50_succ n) as Hdiv.
    destruct (Nat.eqb_spec (S n mod 50) 0) as [Hz | Hnz].
    + destruct (mod50_zero_large n Hz) as [Hbig Hall].
      destruct (Nat.ltb_spec (S n) 50); [ lia | ].
      rewrite Hall. f_equal. f_equal. symmetry. apply firstn_all2.
      rewrite length_app. simpl. lia.
    + rewrite Hinv, Hdiv, Nat.add_0_r.
      pose proof (Nat.div_mod_eq n 50) as Hn.
      pose proof (Nat.div_mod_eq (S n) 50) as Hn'.
      pose proof (Nat.mod_upper_bound (S n) 50) as Hr'.
      rewrite Hdiv, Nat.add_0_r in Hn'.
      destruct (Nat.ltb_spec n 50); destruct (Nat.ltb_spec (S n) 50); try lia.
      * reflexivity.
      * rewrite firstn_app.
        replace (50 * (n / 50) - List.length (features_window g)) with 0
          by (fold n; lia).
        now rewrite firstn_O, app_nil_r.
Qed.

Lemma serve_detector cfg requests :
  let g := fst (serve cfg initial_globals requests) in
  anomaly_detector g
  = (if (List.length (features_window g) <? 50)%nat then None
     else Some (published cfg
                  (firstn (50 * (List.length (features_window g) / 50))
                     (features_window g)))).
Proof.
  apply (serve_invariant cfg
           (fun g => anomaly_detector g
                     = (if (List.length (features_window g) <? 50)%nat then None
                        else Some (published cfg
                                     (firstn (50 * (List.length (features_window g) / 50))
                                        (features_window g)))))).
  - intros w g t. apply detector_tracks_window.
  - reflexivity.
Qed.

(** Counting the re-trainings of a sequence of requests, from any globals. *)
Lemma serve_rebuilds cfg requests :
  forall g,
    rebuilds (snd (serve cfg g requests)) + List.length (features_window g) / 50
    = (List.length (features_window g) + appends cfg requests) / 50.
Proof.
  induction requests as [ | [w t] requests IH]; intros g.
  - unfold appends, accepted_features. cbn [serve snd rebuilds filter List.length].
    destruct (PROMETHEUS_AVAILABLE cfg); cbn [flat_map List.length];
      now rewrite Nat.add_0_r.
  - rewrite serve_cons_runs. unfold rebuilds in *. cbn [filter].
    change ((w, t) :: requests) with ([(w, t)] ++ requests).
    unfold appends in *. rewrite accepted_features_app, length_app.
    specialize (IH (globals (analyze_flow cfg w g t))).
    destruct (accepted_features_cases cfg w t) as [Hnone | (f & Hp & Hf & Hone)].
    + destruct (request_without_append cfg w g t Hnone) as [Hg Hreb].
      rewrite Hreb, Hnone. rewrite Hg in IH |- *. cbn [List.length Nat.add]. exact IH.
    + destruct (globals_after_request cfg w g t f Hp Hf) as [Hw _].
      destruct (detector_after_append cfg w g t f Hp Hf) as [_ Hreb].
      rewrite Hw, length_app in IH. cbn [List.length] in IH.
      rewrite Hreb, Hone. cbn [List.length].
      pose proof (div50_succ (List.length (features_window g))) as Hdiv.
      replace (List.length (features_window g) + 1)
        with (S (List.length (features_window g))) in IH by lia.
      replace (List.length (features_window g)
               + (1 + List.length (accepted_features cfg requests)))
        with (S (List.length (features_window g))
              + List.length (accepted_features cfg requests)) by lia.
      rewrite <- IH, Hdiv.
      destruct (S (List.length (features_window g)) mod 50 =? 0)%nat;
        cbn [List.length]; lia.
Qed.

End InvariantFacts.

(** X5: since the start of the service, the detector in use is the one
    made from the first 50*floor(n/50) of the n vectors appended so far:
    there is none before the fiftieth append, and the most recent n mod 50
    vectors, up to 49, are never part of its training matrix. *)
Theorem detector_training_set :
  forall (SK : Sklearn) (DT : Datetime) (cfg : Config)
         (requests : list (World * TelemetryData)),
    let g := fst (serve cfg initial_globals requests) in
    let n := appends cfg requests in
    anomaly_detector g
    = (if (n <? 50)%nat then None
       else Some (published cfg (firstn (50 * (n / 50)) (accepted_features cfg requests))))
    /\ 50 * (n / 50) <= n < 50 * (n / 50) + 50.
Proof.
  intros SK DT cfg requests g n.
  pose proof (serve_detector cfg requests) as Hdet. cbv zeta in Hdet. fold g in Hdet.
  destruct (serve_from_start cfg requests) as [Hw _]. fold g in Hw.
  rewrite Hw in Hdet. split; [ exact Hdet | ].
  pose proof (Nat.div_mod_eq n 50). pose proof (Nat.mod_upper_bound n 50). lia.
Qed.

(** X6: what [GET /health] reports after any sequence of requests since
    the start: detector_trained is true exactly from the fiftieth append
    on (also when that training raised), history_size is the number of
    appends capped at SENTINEL_HISTORY_MAX. *)
Theorem health_after_requests :
  forall (SK : Sklearn) (DT : Datetime) (cfg : Config)
         (requests : list (World * TelemetryData)) (now : datetime),
    let report := fst (health_check cfg now (fst (serve cfg initial_globals requests))) in
    detector_trained report = (50 <=? appends cfg requests)%nat
    /\ history_size report = Nat.min (appends cfg requests) (SENTINEL_HISTORY_MAX cfg)
    /\ health_status report = "healthy".
Proof.
  intros SK DT cfg requests now report. subst report.
  unfold health_check. cbn [fst detector_trained history_size health_status].
  pose proof (serve_detector cfg requests) as Hdet. cbv zeta in Hdet.
  destruct (serve_from_start cfg requests) as [Hw Hh].
  split; [ | split; [ | reflexivity ] ].
  - rewrite Hdet, Hw. fold (appends cfg requests).
    destruct (Nat.ltb_spec (appends cfg requests) 50);
      destruct (Nat.leb_spec 50 (appends cfg requests)); try lia; reflexivity.
  - rewrite <- (length_map h_features), Hh, length_skipn. unfold appends. lia.
Qed.

(** X7: the number of re-trainings performed by a sequence of requests
    since the start is the number of appends divided by 50, rounded down. *)
Theorem rebuild_count :
  forall (SK : Sklearn) (DT : Datetime) (cfg : Config)
         (requests : list (World * TelemetryData)),
    rebuilds (snd (serve cfg initial_globals requests)) = appends cfg requests / 50.
Proof.
  intros SK DT cfg requests.
  pose proof (serve_rebuilds cfg requests initial_globals) as H.
  cbn [initial_globals features_window List.length] in H.
  change (0 / 50) with 0 in H. rewrite Nat.add_0_r in H. exact H.
Qed.

(** ** The confidence as a number *)

Lemma iter_pos_keeps {A} (step : A -> A) (P : A -> Prop) :
  (forall x, P x -> P (step x)) ->
  forall p x, P x -> P (iter_pos step p x).
Proof.
  intros Hstep. induction p as [p IH | p IH | ]; intros x Hx; cbn [iter_pos]; auto.
Qed.

Lemma shr_1_nonneg (mrs : shr_record) :
  (0 <= shr_m mrs)%Z -> (0 <= shr_m (shr_1 mrs))%Z.
Proof.
  destruct mrs as [m r s]. cbn [shr_m].
  destruct m as [ | [p | p | ] | p]; cbn; lia.
Qed.

Lemma shr_fexp_nonneg (m e : Z) (l : location) :
  (0 <= m)%Z -> (0 <= shr_m (fst (shr_fexp prec emax m e l)))%Z.
Proof.
  intros Hm. unfold shr_fexp, shr.
  assert (H0 : (0 <= shr_m (shr_record_of_loc m l))%Z).
  { destruct l as [ | [ | | ]]; exact Hm. }
  destruct (fexp prec emax (Zdigits2 m + e) - e)%Z; cbn [fst]; try exact H0.
  apply (iter_pos_keeps shr_1 (fun r => (0 <= shr_m r)%Z) shr_1_nonneg). exact H0.
Qed.

(** Rounding a mantissa that is not negative keeps the sign it is given
    and never yields NaN. *)
Lemma binary_round_aux_sign (sx : bool) (mx ex : Z) (lx : location) :
  (0 <= mx)%Z ->
  match binary_round_aux prec emax sx mx ex lx with
  | S754_nan => False
  | S754_zero s | S754_infinity s | S754_finite s _ _ => s = sx
  end.
Proof.
  intros Hm. unfold binary_round_aux.
  pose proof (shr_fexp_nonneg mx ex lx Hm) as H1.
  destruct (shr_fexp prec emax mx ex lx) as [mrs' e']. cbn [fst] in H1.
  assert (H2 : (0 <= round_nearest_even (shr_m mrs') (loc_of_shr_record mrs'))%Z).
  { unfold round_nearest_even.
    destruct (loc_of_shr_record mrs') as [ | [ | | ]]; try lia.
    destruct (Z.even (shr_m mrs')); lia. }
  pose proof (shr_fexp_nonneg _ e' loc_Exact H2) as H3.
  destruct (shr_fexp prec emax _ e' loc_Exact) as [mrs'' e'']. cbn [fst] in H3.
  destruct (shr_m mrs'') as [ | m | m]; [ reflexivity | | lia ].
  destruct (e'' <=? emax - prec)%Z; reflexivity.
Qed.

(** [abs x * 10] on the specification side: not negative, and NaN only
    for a NaN. *)
Lemma scaled_abs_sign (x : spec_float) :
  match SF64mul (SFabs x) (Prim2SF 10) with
  | S754_nan => x = S754_nan
  | S754_zero s | S754_infinity s | S754_finite s _ _ => s = false
  end.
Proof.
  remember (Prim2SF 10) as ten eqn:Hten. vm_compute in Hten. subst ten.
  destruct x as [s | s | | s m e]; try reflexivity.
  cbn [SFabs SF64mul SFmul xorb].
  pose proof (binary_round_aux_sign false
                (Z.pos (m * 5629499534213120)) (e + -49) loc_Exact) as H.
  destruct (binary_round_aux prec emax false _ _ loc_Exact); try (apply H; lia).
  exfalso. apply H. lia.
Qed.

Lemma not_nan_spec (d : float) : (d =? d)%float = true -> Prim2SF d <> S754_nan.
Proof.
  rewrite eqb_spec. intros H E. rewrite E in H. discriminate.
Qed.

Lemma leb_of_not_ltb_one (x : spec_float) :
  match x with
  | S754_nan => False
  | S754_zero s | S754_infinity s | S754_finite s _ _ => s = false
  end ->
  SFltb (Prim2SF 1) x = false ->
  SFleb x (Prim2SF 1) = true.
Proof.
  remember (Prim2SF 1) as one eqn:Hone. vm_compute in Hone. subst one.
  destruct x as [s | s | | s m e]; intros Hs Hlt; try contradiction; subst s.
  - reflexivity.
  - vm_compute in Hlt. discriminate.
  - revert Hlt. unfold SFltb, SFleb. cbn [SFcompare].
    rewrite (Z.compare_antisym (-52) e).
    destruct (-52 ?= e)%Z; cbn [CompOpp]; try reflexivity; try discriminate.
    pose proof (Pos.compare_cont_antisym m 4503599627370496 Eq) as Hanti.
    cbn [CompOpp] in Hanti. rewrite <- Hanti.
    destruct (Pos.compare_cont Eq m 4503599627370496); cbn [CompOpp];
      try reflexivity; discriminate.
Qed.

(** X8: the confidence of a threat response is never above 1 and never
    below 0, whatever the decision value; it is NaN only when the decision
    value is NaN, and otherwise lies in the closed interval from 0 to 1. *)
Theorem confidence_range :
  forall (text : string) (d : float),
    exists c,
      confidence (threat_response text d) = Some c
      /\ (1 <? c)%float = false
      /\ (c <? 0)%float = false
      /\ ((d =? d)%float = true -> (0 <=? c)%float = true /\ (c <=? 1)%float = true).
Proof.
  intros text d. exists (Py.min (abs d * 10)%float 1%float).
  split; [ reflexivity | ].
  unfold Py.min. destruct (1 <? abs d * 10)%float eqn:Hlt.
  - repeat split; reflexivity.
  - split; [ exact Hlt | ].
    pose proof (scaled_abs_sign (Prim2SF d)) as Hsign.
    rewrite ltb_spec, mul_spec, abs_spec in Hlt.
    rewrite ltb_spec, !leb_spec, mul_spec, abs_spec.
    remember (Prim2SF 0) as zero eqn:Hzero. vm_compute in Hzero. subst zero.
    split.
    + destruct (SF64mul (SFabs (Prim2SF d)) (Prim2SF 10)) as [s | s | | s m e];
        try subst s; reflexivity.
    + intros Hnn. apply not_nan_spec in Hnn.
      assert (Hpos : match SF64mul (SFabs (Prim2SF d)) (Prim2SF 10) with
                     | S754_nan => False
                     | S754_zero s | S754_infinity s | S754_finite s _ _ => s = false
                     end).
      { destruct (SF64mul (SFabs (Prim2SF d)) (Prim2SF 10)); auto. }
      split; [ | apply leb_of_not_ltb_one; assumption ].
      destruct (SF64mul (SFabs (Prim2SF d)) (Prim2SF 10)) as [s | s | | s m e];
        try contradiction; subst s; reflexivity.
Qed.

(** ** What the window and the history hold *)

Lemma deque_append_keeps {A} (Q : A -> Prop) (maxlen : nat) (d : list A) (x : A) :
  Forall Q d -> Q x -> Forall Q (Py.deque_append maxlen d x).
Proof.
  intros Hd Hx. unfold Py.deque_append.
  assert (Hall : Forall Q (d ++ [x])) by (apply Forall_app; auto).
  destruct (maxlen <? List.length (d ++ [x]))%nat; [ | exact Hall ].
  destruct (d ++ [x]) as [ | a l]; [ constructor | ].
  cbn [tl]. now apply Forall_inv_tail in Hall.
Qed.

(** X9: every vector of the training window has exactly three entries, so
    the matrix handed to [fit] is rectangular, and so has the feature list
    of every history record. *)
Theorem window_rows_are_triples :
  forall (SK : Sklearn) (DT : Datetime) (cfg : Config)
         (requests : list (World * TelemetryData)),
    let g := fst (serve cfg initial_globals requests) in
    Forall (fun row => List.length row = 3) (features_window g)
    /\ Forall (fun entry => List.length (h_features entry) = 3) (telemetry_history g).
Proof.
  intros SK DT cfg requests g.
  destruct (serve_from_start cfg requests) as [Hw Hh]. fold g in Hw, Hh.
  assert (Hrows : Forall (fun row => List.length row = 3) (features_window g)).
  { rewrite Hw. unfold accepted_features.
    destruct (PROMETHEUS_AVAILABLE cfg); [ | constructor ].
    apply Forall_forall. intros row Hin.
    apply in_flat_map in Hin. destruct Hin as ([w t] & _ & Hin). cbn [snd] in Hin.
    destruct (extract_features t) as [f | e] eqn:Hf; [ | contradiction ].
    destruct Hin as [<- | []].
    destruct (extract_features_shape t f Hf) as (b & c & ->). reflexivity. }
  split; [ exact Hrows | ].
  apply Forall_forall. intros entry Hin.
  apply (in_map h_features) in Hin. rewrite Hh, <- Hw in Hin.
  assert (Hin' : In (h_features entry) (features_window g)).
  { rewrite <- (firstn_skipn (appends cfg requests - SENTINEL_HISTORY_MAX cfg)
                  (features_window g)).
    apply in_or_app. now right. }
  exact (proj1 (Forall_forall _ _) Hrows _ Hin').
Qed.

(** X10: every record of the history carries a timestamp, also when the
    request came without one, its text is the ISO form of that timestamp,
    and its feature list is the one extracted from its telemetry. *)
Theorem history_records_are_consistent :
  forall (SK : Sklearn) (DT : Datetime) (cfg : Config)
         (requests : list (World * TelemetryData)),
    Forall
      (fun entry =>
         exists stamp,
           timestamp (h_telemetry entry) = Some stamp
           /\ h_timestamp entry = isoformat stamp
           /\ extract_features (h_telemetry entry) = Ok (h_features entry))
      (telemetry_history (fst (serve cfg initial_globals requests))).
Proof.
  intros SK DT cfg requests.
  apply (serve_invariant cfg
           (fun g => Forall
                       (fun entry =>
                          exists stamp,
                            timestamp (h_telemetry entry) = Some stamp
                            /\ h_timestamp entry = isoformat stamp
                            /\ extract_features (h_telemetry entry) = Ok (h_features entry))
                       (telemetry_history g))); [ | constructor ].
  intros w g t Hinv.
  destruct (accepted_features_cases cfg w t) as [Hnone | (f & Hp & Hf & _)].
  - now destruct (request_without_append cfg w g t Hnone) as [-> _].
  - destruct (globals_after_request cfg w g t f Hp Hf) as [_ ->].
    apply deque_append_keeps; [ exact Hinv | ].
    cbn [h_telemetry h_timestamp h_features].
    rewrite (analyze_flow_on cfg w g t f Hp Hf). cbv zeta.
    cbn [sample record_sample snd].
    destruct (timestamp t) as [given | ] eqn:Ht.
    + exists given. auto.
    + exists (utcnow w). repeat split. exact Hf.
Qed.

(** X11: a request that raises does so in one of two places. When an
    integer of the sample is beyond the doubles, nothing was recorded: the
    globals and the sample are as before. When the truth value of the
    detector raises, the sample is already in the window. *)
Theorem failed_request_state :
  forall (SK : Sklearn) (DT : Datetime) (cfg : Config) (w : World) (g : Globals)
         (t : TelemetryData) (e : exn),
    returned (analyze_flow cfg w g t) = Raise e ->
    (extract_features t = Raise e
     /\ globals (analyze_flow cfg w g t) = g
     /\ sample (analyze_flow cfg w g t) = t)
    \/ (exists f det,
          extract_features t = Ok f
          /\ features_window (globals (analyze_flow cfg w g t)) = features_window g ++ [f]
          /\ anomaly_detector (globals (analyze_flow cfg w g t)) = Some det
          /\ forest_bool det = Raise e).
Proof.
  intros SK DT cfg w g t e Hret.
  destruct (PROMETHEUS_AVAILABLE cfg) eqn:Hp;
    [ | rewrite (analyze_flow_off cfg w g t Hp) in Hret; discriminate ].
  destruct (extract_features t) as [f | e'] eqn:Hf.
  - right. exists f.
    destruct (globals_after_request cfg w g t f Hp Hf) as [Hw _].
    rewrite (analyze_flow_on cfg w g t f Hp Hf) in *. cbv zeta in *.
    cbn [returned globals] in *.
    destruct (detect_cases cfg w
                (fst (maybe_retrain cfg (fst (record_sample cfg w g t f)))) f
                (snd (record_sample cfg w g t f)))
      as [(det & e' & Hd & Hb & Hr) | [Hr | (det & d & text & _ & _ & _ & _ & _ & _ & Hr)]];
      rewrite Hr in Hret; try discriminate.
    injection Hret as ->. exists det. auto.
  - left. rewrite (analyze_flow_overflow cfg w g t e' Hp Hf) in *.
    cbn [returned globals sample] in *. injection Hret as ->. auto.
Qed.

Lemma failed_request_state_witness :
  (extract_features huge_sample = Raise OverflowError
   /\ globals (analyze_flow (SK := toy_sklearn) (default_config true) offline
                 initial_globals huge_sample) = initial_globals
   /\ sample (analyze_flow (SK := toy_sklearn) (default_config true) offline
                initial_globals huge_sample) = huge_sample)
  \/ (exists f det,
        extract_features huge_sample = Ok f
        /\ features_window
             (globals (analyze_flow (SK := toy_sklearn) (default_config true) offline
                         initial_globals huge_sample))
           = features_window (@initial_globals toy_sklearn iso_datetime) ++ [f]
        /\ anomaly_detector
             (globals (analyze_flow (SK := toy_sklearn) (default_config true) offline
                         initial_globals huge_sample)) = Some det
        /\ forest_bool det = Raise OverflowError).
Proof.
  refine (failed_request_state toy_sklearn iso_datetime (default_config true) offline
            initial_globals huge_sample OverflowError _).
  vm_compute. reflexivity.
Defined.

(** ** The wrapper of [ml_engine.py] *)

(** X12: an untrained [AnomalyDetector] answers 1 and the score 0.0
    without asking the estimator. A trained one labels a vector -1 exactly
    when its [score_samples] is below the threshold: the estimator's own
    label plays no part in the answer, though an exception of that unused
    call still fails [predict]. *)
Theorem ml_predict_label :
  forall (SK : Sklearn) (SC : SklearnScores SK) (d : AnomalyDetector)
         (feature_vector : list float) (threshold : float),
    (is_trained d = false ->
     ml_predict d feature_vector threshold = Ok 1%Z
     /\ ml_score d feature_vector = Ok 0%float)
    /\ (is_trained d = true ->
        (forall label s,
           predict (model d) feature_vector = Ok label ->
           score_samples (model d) feature_vector = Ok s ->
           ml_predict d feature_vector threshold
           = Ok (if Py.gt threshold s then (-1)%Z else 1%Z)
           /\ ml_score d feature_vector = Ok s)
        /\ (forall e,
              predict (model d) feature_vector = Raise e ->
              ml_predict d feature_vector threshold = Raise e)
        /\ (forall label e,
              predict (model d) feature_vector = Ok label ->
              score_samples (model d) feature_vector = Raise e ->
              ml_predict d feature_vector threshold = Raise e)).
Proof.
  intros SK SC d fv th. unfold ml_predict, ml_score. split.
  - intros ->. now split.
  - intros ->. cbn [negb]. split; [ | split ].
    + intros label s -> ->. cbn [bind]. unfold Py.gt.
      destruct (s <? th)%float; now split.
    + intros e ->. reflexivity.
    + intros label e -> ->. reflexivity.
Qed.

(** X13: [explain_anomaly] never returns an empty list and at most three
    items; it reads the first four values only and ignores the second
    (input_size); on a vector of three features, as the service extracts
    them, it reports high latency above 1000 and an elevated error rate
    above 5, and the placeholder when neither holds. *)
Theorem explain_anomaly_indicators :
  forall (str_value : float -> string),
    (forall v, explain_anomaly str_value v <> [])
    /\ (forall v, List.length (explain_anomaly str_value v) <= 3)
    /\ (forall a b b' rest,
          explain_anomaly str_value (a :: b :: rest)
          = explain_anomaly str_value (a :: b' :: rest))
    /\ (forall a b c m extra,
          explain_anomaly str_value (a :: b :: c :: m :: extra)
          = explain_anomaly str_value [a; b; c; m])
    /\ (forall a b c,
          explain_anomaly str_value [a; b; c]
          = match Py.gt a 1000, Py.gt c 5 with
            | true, true => [("High latency: " ++ str_value a ++ "ms")%string;
                             ("Elevated error rate: " ++ str_value c)%string]
            | true, false => [("High latency: " ++ str_value a ++ "ms")%string]
            | false, true => [("Elevated error rate: " ++ str_value c)%string]
            | false, false => ["No clear anomaly indicators"]
            end).
Proof.
  intros str_value.
  assert (Hshape : forall v,
             explain_anomaly str_value v <> []
             /\ List.length (explain_anomaly str_value v) <= 3).
  { intros [ | a [ | b [ | c [ | m extra ] ] ] ];
      unfold explain_anomaly, indicator, Py.gt; cbn;
      repeat match goal with
             | |- context [PrimFloat.ltb ?x ?y] => destruct (PrimFloat.ltb x y)
             end;
      cbn; (split; [ discriminate | lia ]). }
  split; [ apply Hshape | ]. split; [ apply Hshape | ].
  split; [ | split ].
  - intros a b b' [ | c [ | m extra ] ]; reflexivity.
  - intros a b c m extra. reflexivity.
  - intros a b c. unfold explain_anomaly, indicator, Py.gt. cbn.
    destruct (1000 <? a)%float, (5 <? c)%float; reflexivity.
Qed.

(** ** The confidence of [ekg_connector.py] *)

(** X14: the confidence score of an enrichment always lies between 0.5
    and 1.0, so the lower clamp at 0.0 never acts; it is 1.0 exactly when
    dependencies, owners and risk factors were all found and the depth is
    above 1. In double arithmetic the sum for full data at depth 1 stays
    just below 1.0. *)
Theorem ekg_confidence_score :
  forall (A B C : Type) (dependencies : list A) (owners : list B)
         (risk_factors : list C) (depth : Z),
    let score := calculate_confidence_score dependencies owners risk_factors depth in
    (0.5 <=? score)%float = true
    /\ (score <=? 1)%float = true
    /\ (score =? 1)%float
       = list_bool dependencies && list_bool owners && list_bool risk_factors
         && (1 <? depth)%Z
    /\ (calculate_confidence_score [tt] [tt] [tt] 1 <? 1)%float = true.
Proof.
  intros A B C dependencies owners risk_factors depth score. subst score.
  unfold calculate_confidence_score.
  destruct (list_bool dependencies), (list_bool owners), (list_bool risk_factors),
    (1 <? depth)%Z; vm_compute; repeat split; reflexivity.
Qed.

(** ** Reviewing a diff *)

Lemma split_lines_single (line : string) :
  Reviewer.single_line line = true -> Reviewer.split_lines line = [line].
Proof.
  unfold Reviewer.single_line.
  induction line as [ | c line IH]; [ reflexivity | ].
  cbn [list_ascii_of_string forallb Reviewer.split_lines].
  intros H. apply andb_true_iff in H. destruct H as [Hc Hrest].
  destruct (Ascii.eqb c Reviewer.newline); [ discriminate | ].
  now rewrite (IH Hrest).
Qed.

Lemma split_lines_app (line rest : string) :
  Reviewer.single_line line = true ->
  Reviewer.split_lines (line ++ String Reviewer.newline rest)
  = line :: Reviewer.split_lines rest.
Proof.
  unfold Reviewer.single_line.
  induction line as [ | c line IH].
  - intros _. cbn [String.append Reviewer.split_lines].
    now rewrite Ascii.eqb_refl.
  - cbn [list_ascii_of_string forallb String.append Reviewer.split_lines].
    intros H. apply andb_true_iff in H. destruct H as [Hc Hrest].
    destruct (Ascii.eqb c Reviewer.newline); [ discriminate | ].
    now rewrite (IH Hrest).
Qed.

(** Splitting undoes joining, for lines without a newline. *)
Lemma split_join_lines (lines : list string) :
  lines <> [] ->
  Forall (fun line => Reviewer.single_line line = true) lines ->
  Reviewer.split_lines (Reviewer.join_lines lines) = lines.
Proof.
  unfold Reviewer.join_lines.
  induction lines as [ | line lines IH]; [ congruence | ].
  intros _ Hall. inversion Hall as [ | ? ? Hline Hrest]; subst.
  destruct lines as [ | line' lines].
  - cbn [String.concat]. now apply split_lines_single.
  - change (String.concat (String Reviewer.newline "") (line :: line' :: lines))
      with (line ++ String Reviewer.newline
              (String.concat (String Reviewer.newline "") (line' :: lines)))%string.
    rewrite (split_lines_app _ _ Hline), IH; [ reflexivity | discriminate | exact Hrest ].
Qed.

Lemma flat_map_nothing {A B} (h : A -> list B) (l : list A) :
  (forall x, In x l -> h x = []) -> flat_map h l = [].
Proof.
  induction l as [ | a l IH]; intros H; [ reflexivity | ].
  cbn [flat_map]. rewrite (H a), IH; [ reflexivity | | left; reflexivity ].
  intros x Hx. apply H. now right.
Qed.

Lemma startswith_plus (line : string) :
  Reviewer.startswith "+" (String "+" line) = true.
Proof. unfold Reviewer.startswith. cbn. destruct line; reflexivity. Qed.

Lemma startswith_header (line : string) :
  Reviewer.startswith "+++" (String "+" line) = Reviewer.startswith "++" line.
Proof. unfold Reviewer.startswith. cbn. reflexivity. Qed.

(** X15: when the diff adds the lines [lines], one [+] before each, none
    of them holding a newline or beginning with [++], the code handed to
    [review_code] is exactly those lines joined by newlines, under the file
    name "diff". *)
Theorem review_diff_recovers_added_code :
  forall (FileReview : Type)
         (review_code : string -> string -> Reviewer.ReviewResult FileReview)
         (lines : list string),
    lines <> [] ->
    (forall line, In line lines ->
                  Reviewer.single_line line = true
                  /\ Reviewer.startswith "++" line = false) ->
    Reviewer.added_lines (Reviewer.join_lines (map (String "+") lines)) = lines
    /\ Reviewer.review_diff review_code (Reviewer.join_lines (map (String "+") lines))
       = review_code (Reviewer.join_lines lines) "diff".
Proof.
  intros FileReview review_code lines Hne Hlines.
  assert (Hadded : Reviewer.added_lines (Reviewer.join_lines (map (String "+") lines))
                   = lines).
  { unfold Reviewer.added_lines.
    rewrite split_join_lines.
    - clear Hne. induction lines as [ | line lines IH]; [ reflexivity | ].
      cbn [map flat_map].
      destruct (Hlines line (or_introl eq_refl)) as [_ Hplus].
      rewrite startswith_plus, startswith_header, Hplus. cbn [andb negb Reviewer.drop_first app].
      rewrite IH; [ reflexivity | ]. intros l Hl. apply Hlines. now right.
    - destruct lines; [ congruence | discriminate ].
    - apply Forall_forall. intros l Hl. apply in_map_iff in Hl.
      destruct Hl as (line & <- & Hin). destruct (Hlines line Hin) as [Hs _].
      unfold Reviewer.single_line in *. cbn [list_ascii_of_string forallb].
      now rewrite Hs. }
  split; [ exact Hadded | ].
  unfold Reviewer.review_diff. rewrite Hadded.
  destruct lines; [ congruence | reflexivity ].
Qed.

Lemma review_diff_recovers_added_code_witness :
  Reviewer.added_lines (Reviewer.join_lines (map (String "+") ["import os"; "x = 1"]))
  = ["import os"; "x = 1"].
Proof.
  refine (proj1 (review_diff_recovers_added_code unit
                   (fun _ _ => {| Reviewer.overall_status := "PASS";
                                  Reviewer.summary := "";
                                  Reviewer.score := 10;
                                  Reviewer.files := [] |})
                   ["import os"; "x = 1"] _ _)).
  - discriminate.
  - intros line [<- | [<- | []]]; split; reflexivity.
Defined.

(** X16: a diff in which no line begins with a single [+] is answered
    PASS with score 10 and no file review, without calling [review_code];
    and so is a diff whose only added line has a text that begins with
    [++]: it is taken for a [+++] header and dropped. *)
Theorem review_diff_without_additions :
  forall (FileReview : Type)
         (review_code : string -> string -> Reviewer.ReviewResult FileReview),
    (forall diff_text,
        (forall line, In line (Reviewer.split_lines diff_text) ->
                      Reviewer.startswith "+" line = false
                      \/ Reviewer.startswith "+++" line = true) ->
        Reviewer.review_diff review_code diff_text
        = {| Reviewer.overall_status := "PASS";
             Reviewer.summary := "No new code changes detected";
             Reviewer.score := 10;
             Reviewer.files := [] |})
    /\ (forall code,
          Reviewer.single_line code = true ->
          Reviewer.startswith "++" code = true ->
          Reviewer.review_diff review_code (String "+" code)
          = {| Reviewer.overall_status := "PASS";
               Reviewer.summary := "No new code changes detected";
               Reviewer.score := 10;
               Reviewer.files := [] |})
    /\ Reviewer.added_lines Reviewer.removal_diff = [].
Proof.
  intros FileReview review_code.
  assert (Hnone : forall diff_text,
             (forall line, In line (Reviewer.split_lines diff_text) ->
                           Reviewer.startswith "+" line = false
                           \/ Reviewer.startswith "+++" line = true) ->
             Reviewer.added_lines diff_text = []).
  { intros diff_text H. unfold Reviewer.added_lines.
    apply flat_map_nothing. intros line Hin.
    destruct (H line Hin) as [-> | ->]; [ reflexivity | ].
    now rewrite andb_false_r. }
  split; [ | split ].
  - intros diff_text H. unfold Reviewer.review_diff. now rewrite (Hnone diff_text H).
  - intros code Hsingle Hplus. unfold Reviewer.review_diff.
    rewrite Hnone; [ reflexivity | ].
    rewrite split_lines_single.
    + intros line [<- | []]. right. now rewrite startswith_header.
    + unfold Reviewer.single_line in *. cbn [list_ascii_of_string forallb].
      now rewrite Hsingle.
  - reflexivity.
Qed.

(** ** The anomaly gauge *)

Lemma gauge_values_app (tr1 tr2 : list event) :
  gauge_values (tr1 ++ tr2) = gauge_values tr1 ++ gauge_values tr2.
Proof. apply flat_map_app. Qed.

Lemma gauge_values_inc_if (cfg : Config) (metric : string) :
  gauge_values (inc_if cfg metric) = [].
Proof. unfold inc_if. destruct (PROMETHEUS_AVAILABLE cfg); reflexivity. Qed.

Section GaugeFacts.

Context {SK : Sklearn} {DT : Datetime}.

Lemma explain_async_gauge (cfg : Config) (outcome : http_outcome)
  (f : list float) (payload : TelemetryData) :
  gauge_values (snd (explain_async cfg outcome f payload)) = [].
Proof.
  assert (Hprim : gauge_values (snd (primary_explanation cfg outcome)) = []).
  { unfold primary_explanation.
    destruct outcome as [e | code body]; [ reflexivity | ].
    destruct (code =? 200)%Z; [ | reflexivity ].
    destruct (bind body message_content) as [text | e]; [ | reflexivity ].
    destruct (Py.str_bool text); [ apply gauge_values_inc_if | reflexivity ]. }
  unfold explain_async.
  destruct f as [ | a [ | b [ | c rest ] ] ];
    try (cbn [snd]; change (LogWarning IndexError :: inc_if cfg "LLM_FAILURES")
           with ([LogWarning IndexError] ++ inc_if cfg "LLM_FAILURES");
         now rewrite gauge_values_app, gauge_values_inc_if).
  destruct (primary_explanation cfg outcome) as [[[text | ] | e] tr];
    cbn [snd] in *.
  - change (HttpPost (route payload) :: tr) with ([HttpPost (route payload)] ++ tr).
    now rewrite gauge_values_app, Hprim.
  - change (HttpPost (route payload) :: tr) with ([HttpPost (route payload)] ++ tr).
    now rewrite gauge_values_app, Hprim.
  - change (HttpPost (route payload) :: tr ++ LogWarning e :: inc_if cfg "LLM_FAILURES")
      with ([HttpPost (route payload)] ++ tr ++ [LogWarning e] ++ inc_if cfg "LLM_FAILURES").
    now rewrite !gauge_values_app, Hprim, gauge_values_inc_if.
Qed.

Lemma maybe_retrain_gauge (cfg : Config) (g : Globals) :
  gauge_values (snd (maybe_retrain cfg g)) = [].
Proof.
  unfold maybe_retrain, update_anomaly_detector.
  destruct (_ mod 50 =? 0)%nat; [ | reflexivity ].
  destruct (_ <? 10)%nat; [ reflexivity | ]. destruct (fit _ _); reflexivity.
Qed.

Lemma detect_gauge (cfg : Config) (w : World) (g : Globals) (f : list float)
  (t : TelemetryData) :
  PROMETHEUS_AVAILABLE cfg = true ->
  gauge_values (snd (detect cfg w g f t))
  = match fst (detect cfg w g f t) with
    | Ok (Some r) => [if String.eqb (status r) "THREAT_DETECTED" then 1%float else 0%float]
    | _ => []
    end.
Proof.
  intros Hp. unfold detect, normal. rewrite Hp.
  destruct (anomaly_detector g) as [det | ]; [ | reflexivity ].
  destruct (forest_bool det) as [[ | ] | e]; [ | reflexivity | reflexivity ].
  destruct (10 <=? List.length (features_window g))%nat; [ | reflexivity ].
  unfold score, after, normal. rewrite Hp.
  destruct (decision_function det f) as [d | e]; [ | reflexivity ].
  destruct (predict det f) as [p | e]; [ | reflexivity ].
  destruct (p =? -1)%Z; [ | reflexivity ].
  pose proof (explain_async_gauge cfg (http w) f t) as He.
  destruct (explain_async cfg (http w) f t) as [[text | e] tr]; cbn [fst snd] in *.
  - rewrite !gauge_values_app, He. reflexivity.
  - rewrite !gauge_values_app, He. reflexivity.
Qed.

End GaugeFacts.

(** X17: the gauge ANOMALY_RATE is not a rate: every request that gets a
    response sets it once, to 1.0 for THREAT_DETECTED and to 0.0 for OK,
    so it shows the verdict of the latest request only; a request that
    raises, or is served without the metrics library, does not touch it. *)
Theorem anomaly_gauge_is_last_verdict :
  forall (SK : Sklearn) (DT : Datetime) (cfg : Config) (w : World) (g : Globals)
         (t : TelemetryData),
    gauge_values (trace (analyze_flow cfg w g t))
    = match returned (analyze_flow cfg w g t) with
      | Ok (Some r) => [if String.eqb (status r) "THREAT_DETECTED" then 1%float else 0%float]
      | _ => []
      end.
Proof.
  intros SK DT cfg w g t.
  destruct (PROMETHEUS_AVAILABLE cfg) eqn:Hp;
    [ | now rewrite (analyze_flow_off cfg w g t Hp) ].
  destruct (extract_features t) as [f | e] eqn:Hf;
    [ | now rewrite (analyze_flow_overflow cfg w g t e Hp Hf) ].
  rewrite (analyze_flow_on cfg w g t f Hp Hf). cbv zeta. cbn [returned trace].
  rewrite !gauge_values_app, maybe_retrain_gauge, (detect_gauge cfg w _ f _ Hp).
  cbn [gauge_values flat_map app]. now rewrite app_nil_r.
Qed.

(** ** The scoring guard after a re-training *)

Section GuardFacts.

Context {SK : Sklearn} {DT : Datetime}.



End GuardFacts.


